(** * llm-tts-plugin: the dialogue orchestrator and its two provider clients

    A shallow embedding of [src/AIManager.ts], [src/core/llm/GeminiService.ts]
    and [src/core/tts/ElevenLabsTTSService.ts].

    The TypeScript code is a sequence of awaited calls to collaborators that
    live outside the plugin (the host game's adapter, the Gemini SDK, the
    network behind [fetch]) wrapped in [try]/[catch].  It is embedded in a
    small monad [Js] that threads the state of that outside world, carries a
    JavaScript completion (a returned value or a thrown one; awaiting a
    rejected promise throws) and records every observable interaction in a
    trace.  Every awaited call is taken to settle: a promise that stays
    pending forever suspends the caller for good and has no run here. *)

From Stdlib Require Import ZArith QArith.
From stdpp Require Import base option list strings pretty gmap.

Set Warnings "-register-all".

(** ** JavaScript values *)

(** [new Error(message)].  Whatever a collaborator throws or rejects with is
    represented by its message. *)
Record JsError := mkError { message : string }.

(** The completion of an awaited expression. *)
Inductive Completion (A : Type) :=
| Normal (a : A)
| Throw (e : JsError).
Arguments Normal {A} a.
Arguments Throw {A} e.

(** [ArrayBuffer]: opaque raw bytes. *)
Definition ArrayBuffer := list Byte.byte.

(** A value of type [string | undefined]: [None] is [undefined]. *)
Definition truthy (s : option string) : bool :=
  match s with
  | Some (String _ _) => true
  | _ => false
  end.

(** [a || b] on operands of type [string | undefined]. *)
Definition js_or (a b : option string) : option string :=
  if truthy a then a else b.

(** [a || 'literal']: the right operand is a string literal. *)
Definition js_or_literal (a : option string) (literal : string) : string :=
  match a with
  | Some (String c s) => String c s
  | _ => literal
  end.

(** The double quote character, for template literals that contain one. *)
Definition dquote : string := String (Ascii.ascii_of_nat 34) EmptyString.

(** Line feed, for template literals that span lines. *)
Definition LF : string := String (Ascii.ascii_of_nat 10) EmptyString.

(** [String.prototype.includes]. *)
Fixpoint includes (s sub : string) : bool :=
  String.prefix sub s ||
  match s with
  | EmptyString => false
  | String _ s' => includes s' sub
  end.

(** A value of type [number], known by the text that a template literal
    makes of it ([Number::toString], radix ten): ["5"], ["5.5"], ["1e+21"],
    ["NaN"], ["Infinity"].  The plugin does nothing else with a number. *)
Record JsNumber := { Number_toString : string }.

(** The values handed to [JSON.stringify]; the wire text is their JSON
    serialisation. *)
Inductive Json :=
| JString (s : string)
| JNumber (q : Q)
| JObject (fields : list (string * Json)).

(** ** The Gemini SDK boundary ([@google/genai]) *)

Record Part := { text : option string }.
Record Content := { role : option string; parts : option (list Part) }.
Record Candidate := { content : option Content }.
Record GenerateContentResponse := { candidates : option (list Candidate) }.
Record GenerateContentParameters := { model : string; contents : list Content }.

(** The handle built by [new GoogleGenAI({ apiKey })]. *)
Record GoogleGenAI := { genai_apiKey : option string }.

(** ** The HTTP boundary ([cross-fetch]) *)

Record RequestInit := {
  method : string;
  headers : gmap string string;
  body : Json
}.

(** A [Response]: its status, and what reading its body yields. *)
Record Response := {
  status : Z;
  response_text : Completion string;
  response_arrayBuffer : Completion ArrayBuffer
}.

(** [response.ok], as the Fetch standard defines it. *)
Definition ok (r : Response) : bool :=
  bool_decide (200 ≤ status r)%Z && bool_decide (status r ≤ 299)%Z.

(** ** The records the adapter returns *)

(** The result types of the three state queries of [interface GameAdapter]
    ([src/integrations/GameAdapter.ts]): the declared fields, [name] of an
    entity and of the player under names of their own.  The further fields
    that the index signature [[key: string]: any] allows are never read. *)
Record EntityState := { entity_name : string; personality : option string }.
Record PlayerState := { player_name : string; level : JsNumber }.
Record GameState := { location : string; timeOfDay : string }.

(** ** Observable events *)

(** The second argument of [console.error]. *)
Inductive LogDetail :=
| NoDetail
| DetailError (error : JsError)
| DetailJson (result : GenerateContentResponse).

(** One entry per interaction, with the way the call settled. *)
Inductive Event :=
| ConsoleLog (msg : string)
| ConsoleError (msg : string) (detail : LogDetail)
| GetEntityState (entityId : string) (r : Completion EntityState)
| GetPlayerState (r : Completion PlayerState)
| GetGameState (r : Completion GameState)
| ShowDialogue (text entityId : string) (r : Completion unit)
| PlayAudio (audioData : ArrayBuffer) (entityId : string) (r : Completion unit)
| NewGoogleGenAI (apiKey : option string) (r : Completion GoogleGenAI)
| GenerateContent (params : GenerateContentParameters)
    (r : Completion GenerateContentResponse)
| Fetch (url : string) (init : RequestInit) (r : Completion Response)
| GenerateText (prompt : string) (r : Completion (option string))
| GenerateSpeech (text : string) (r : Completion (option ArrayBuffer)).

(** ** The monad *)

Record Run (W A : Type) := mkRun {
  completion : Completion A;
  world : W;
  events : list Event
}.
Arguments mkRun {W A}.
Arguments completion {W A}.
Arguments world {W A}.
Arguments events {W A}.

Definition Js (W A : Type) := W → Run W A.

Module Js.
Section Monad.
Context {W : Type}.

Definition ret {A} (a : A) : Js W A :=
  λ w, mkRun (Normal a) w [].

Definition throw {A} (e : JsError) : Js W A :=
  λ w, mkRun (Throw e) w [].

Definition bind {A B} (m : Js W A) (k : A → Js W B) : Js W B :=
  λ w,
    let '(mkRun c w' tr) := m w in
    match c with
    | Normal a =>
        let '(mkRun c' w'' tr') := k a w' in
        mkRun c' w'' (tr ++ tr')
    | Throw e => mkRun (Throw e) w' tr
    end.

(** [try { m } catch (error) { handler error }] *)
Definition try_catch {A} (m : Js W A) (handler : JsError → Js W A) : Js W A :=
  λ w,
    let '(mkRun c w' tr) := m w in
    match c with
    | Normal a => mkRun (Normal a) w' tr
    | Throw e =>
        let '(mkRun c' w'' tr') := handler e w' in
        mkRun c' w'' (tr ++ tr')
    end.

Definition emit (ev : Event) : Js W unit :=
  λ w, mkRun (Normal tt) w [ev].

(** A call that leaves the plugin: the outside world answers and moves
    on, and the call is recorded with its answer. *)
Definition perform {A} (op : W → Completion A * W)
    (record : Completion A → Event) : Js W A :=
  λ w, let '(c, w') := op w in mkRun c w' [record c].

(** A call of one of the plugin's own service methods, recorded once it
    has settled (what a jest spy on the method sees). *)
Definition observed {A} (record : Completion A → Event) (m : Js W A) : Js W A :=
  λ w, let '(mkRun c w' tr) := m w in mkRun c w' (tr ++ [record c]).

Definition read {A} (f : W → A) : Js W A :=
  λ w, mkRun (Normal (f w)) w [].

(** [await] of a promise whose outcome the value already carries. *)
Definition await {A} (c : Completion A) : Js W A :=
  λ w, mkRun c w [].
End Monad.
End Js.

Declare Scope js_scope.
Delimit Scope js_scope with js.
Notation "x <- m ;; k" := (Js.bind m (λ x, k))
  (at level 100, m at next level, right associativity) : js_scope.
Notation "m ;; k" := (Js.bind m (λ _, k))
  (at level 100, right associativity) : js_scope.
Local Open Scope js_scope.

Definition console_log {W} (msg : string) : Js W unit :=
  Js.emit (ConsoleLog msg).
Definition console_error {W} (msg : string) (detail : LogDetail) : Js W unit :=
  Js.emit (ConsoleError msg detail).

(** ** The outside world *)

(** [interface GameAdapter] of [src/integrations/GameAdapter.ts], which
    the host implements; an options object is given by the [entityId] that
    the plugin puts in it.  Every operation may change the host's state and
    may throw (or reject).  [stopAudio] and [hideDialogue] are never called
    by the plugin. *)
Record GameAdapter (W : Type) := {
  playAudio : ArrayBuffer → string → W → Completion unit * W;
  showDialogue : string → string → W → Completion unit * W;
  getGameState : W → Completion GameState * W;
  getPlayerState : W → Completion PlayerState * W;
  getEntityState : string → W → Completion EntityState * W
}.
Arguments playAudio {W}.
Arguments showDialogue {W}.
Arguments getGameState {W}.
Arguments getPlayerState {W}.
Arguments getEntityState {W}.

(** What the Node process and the two provider libraries do. *)
Record Externals (W : Type) := {
  process_env : W → gmap string string;
  new_GoogleGenAI : option string → W → Completion GoogleGenAI * W;
  models_generateContent :
    GoogleGenAI → GenerateContentParameters → W →
    Completion GenerateContentResponse * W;
  fetch : string → RequestInit → W → Completion Response * W
}.
Arguments process_env {W}.
Arguments new_GoogleGenAI {W}.
Arguments models_generateContent {W}.
Arguments fetch {W}.

(** ** [ElevenLabsTTSService] *)

Module ElevenLabsTTSService.

Record t := {
  apiKey : string;
  voiceId : string;
  modelId : string
}.

Section Methods.
Context {W : Type} (ext : Externals W).

(** [constructor(apiKey: string, modelId?: string)] *)
Definition new (apiKey : option string) (modelId : option string) : Js W t :=
  match apiKey with
  | Some (String c key) =>
      env <- Js.read (process_env ext) ;;
      Js.ret {|
        apiKey := String c key;
        voiceId := "21m00Tcm4TlvDq8ikWAM";
        modelId :=
          js_or_literal (js_or modelId (env !! "ELEVENLABS_MODEL_ID"))
            "eleven_multilingual_v2"
      |}
  | _ => Js.throw (mkError "ElevenLabs API key is required.")
  end.

(** The second argument of the [fetch] call. *)
Definition request (this : t) (text : string) : RequestInit := {|
  method := "POST";
  headers := {[
    "Accept" := "audio/mpeg";
    "Content-Type" := "application/json";
    "xi-api-key" := apiKey this
  ]};
  body := JObject [
    ("text", JString text);
    ("model_id", JString (modelId this));
    ("voice_settings", JObject [
       ("stability", JNumber (1 # 2));
       ("similarity_boost", JNumber (1 # 2))
     ])
  ]
|}.

(** [generateSpeech(text: string): Promise<ArrayBuffer | null>] *)
Definition generateSpeech (this : t) (text : string) : Js W (option ArrayBuffer) :=
  console_log ("Requesting TTS from ElevenLabs for: " +:+ dquote +:+ text +:+ dquote) ;;
  let url := "https://api.elevenlabs.io/v1/text-to-speech/" +:+ voiceId this in
  Js.try_catch
    (response <- Js.perform (fetch ext url (request this text))
                   (Fetch url (request this text)) ;;
     if negb (ok response) then
       errorBody <- Js.await (response_text response) ;;
       Js.throw (mkError ("HTTP error! status: " +:+ pretty (status response)
                          +:+ ", body: " +:+ errorBody))
     else
       audioData <- Js.await (response_arrayBuffer response) ;;
       Js.ret (Some audioData))
    (λ error,
       console_error "Error calling ElevenLabs TTS API:" (DetailError error) ;;
       Js.ret None).
End Methods.
End ElevenLabsTTSService.

(** ** [GeminiService] *)

Module GeminiService.

Record t := {
  genAI : GoogleGenAI;
  modelName : string
}.

(** [result.candidates?.[0]?.content?.parts?.[0]?.text] *)
Definition first_text (result : GenerateContentResponse) : option string :=
  cs ← candidates result;
  c ← cs !! 0%nat;
  ct ← content c;
  ps ← parts ct;
  p ← ps !! 0%nat;
  text p.

Section Methods.
Context {W : Type} (ext : Externals W).

(** [constructor(apiKey: string, modelName?: string)] *)
Definition new (apiKey : option string) (modelName : option string) : Js W t :=
  genAI <- Js.perform (new_GoogleGenAI ext apiKey) (NewGoogleGenAI apiKey) ;;
  env <- Js.read (process_env ext) ;;
  Js.ret {|
    genAI := genAI;
    modelName :=
      js_or_literal (js_or modelName (env !! "GEMINI_MODEL_NAME"))
        "gemini-1.5-flash"
  |}.

(** The argument of [genAI.models.generateContent]. *)
Definition request (this : t) (prompt : string) : GenerateContentParameters := {|
  model := modelName this;
  contents := [ {| role := Some "user"; parts := Some [ {| text := Some prompt |} ] |} ]
|}.

(** [generateText(prompt: string): Promise<string | null>] *)
Definition generateText (this : t) (prompt : string) : Js W (option string) :=
  console_log ("Sending prompt to Gemini using model " +:+ modelName this +:+ "...") ;;
  Js.try_catch
    (result <- Js.perform (models_generateContent ext (genAI this) (request this prompt))
                 (GenerateContent (request this prompt)) ;;
     let text := first_text result in
     if truthy text then
       Js.ret text
     else
       console_error
         "No text generated from Gemini API or invalid response structure. Response:"
         (DetailJson result) ;;
       Js.ret None)
    (λ error,
       console_error "Error calling Gemini API:" (DetailError error) ;;
       Js.ret None).
End Methods.
End GeminiService.

(** ** [AIManager] *)

Module AIManager.

Record AIManagerOptions := {
  geminiApiKey : option string;
  elevenLabsApiKey : option string;
  geminiModelName : option string;
  elevenLabsModelId : option string
}.

Record t (W : Type) := {
  adapter : GameAdapter W;
  llmService : GeminiService.t;
  ttsService : ElevenLabsTTSService.t
}.
Arguments adapter {W}.
Arguments llmService {W}.
Arguments ttsService {W}.

(** The indentation of the lines of the prompt template. *)
Definition indent : string := "                ".

(** The template literal of step 2. *)
Definition prompt (npcState : EntityState) (playerState : PlayerState)
    (gameState : GameState) : string :=
  LF +:+ indent +:+ "You are " +:+ entity_name npcState
     +:+ ", a character in a fantasy RPG." +:+
  LF +:+ indent +:+ "Your personality is: "
     +:+ js_or_literal (personality npcState) "a mysterious stranger" +:+ "." +:+
  LF +:+ indent +:+ "You are talking to a player named " +:+ player_name playerState
     +:+ "." +:+
  LF +:+ indent +:+ "The player's level is " +:+ Number_toString (level playerState)
     +:+ "." +:+
  LF +:+ indent +:+ "Current situation: You are at " +:+ location gameState
     +:+ ", and it is " +:+ timeOfDay gameState +:+ "." +:+
  LF +:+ indent +:+
  LF +:+ indent +:+ "Based on this, generate a single, short, engaging line of dialogue for the player. Be creative.".

(** The text shown when no dialogue could be produced. *)
Definition fallback : string := "...".

Section Methods.
Context {W : Type} (ext : Externals W).

(** [constructor(adapter: GameAdapter, options: AIManagerOptions)] *)
Definition new (adapter : GameAdapter W) (options : AIManagerOptions) : Js W (t W) :=
  llm <- GeminiService.new ext (geminiApiKey options) (geminiModelName options) ;;
  tts <- ElevenLabsTTSService.new ext (elevenLabsApiKey options)
           (elevenLabsModelId options) ;;
  console_log "AIManager initialized." ;;
  Js.ret {| adapter := adapter; llmService := llm; ttsService := tts |}.

(** The [try] block of [generateNpcDialogue]. *)
Definition generateNpcDialogue_try (this : t W) (entityId : string) : Js W unit :=
  (* 1. Get game state from adapter *)
  npcState <- Js.perform (getEntityState (adapter this) entityId)
                (GetEntityState entityId) ;;
  playerState <- Js.perform (getPlayerState (adapter this)) GetPlayerState ;;
  gameState <- Js.perform (getGameState (adapter this)) GetGameState ;;
  (* 2. Construct a prompt for the LLM *)
  let prompt := prompt npcState playerState gameState in
  (* 3. Generate text with LLM *)
  dialogueText <- Js.observed (GenerateText prompt)
                    (GeminiService.generateText ext (llmService this) prompt) ;;
  match dialogueText with
  | Some (String c s) =>
      let dialogueText := String c s in
      (* 4. Show dialogue in UI immediately *)
      Js.perform (showDialogue (adapter this) dialogueText entityId)
        (ShowDialogue dialogueText entityId) ;;
      (* 5. Generate audio with TTS *)
      audioData <- Js.observed (GenerateSpeech dialogueText)
                     (ElevenLabsTTSService.generateSpeech ext (ttsService this)
                        dialogueText) ;;
      match audioData with
      | None =>
          (* Non-critical error, dialogue is already visible *)
          console_error "Failed to generate audio." NoDetail
      | Some audioData =>
          (* 6. Play audio via game adapter *)
          Js.perform (playAudio (adapter this) audioData entityId)
            (PlayAudio audioData entityId)
      end
  | _ => Js.throw (mkError "Failed to generate dialogue text.")
  end.

(** The [catch] block of [generateNpcDialogue]. *)
Definition generateNpcDialogue_catch (this : t W) (entityId : string)
    (error : JsError) : Js W unit :=
  console_error ("[AIManager] Error generating dialogue for " +:+ entityId +:+ ":")
    (DetailError error) ;;
  (* Show fallback text *)
  Js.perform (showDialogue (adapter this) fallback entityId)
    (ShowDialogue fallback entityId).

(** [generateNpcDialogue(entityId: string, playerContextOverrides?: any):
    Promise<void>]; the second parameter is never read. *)
Definition generateNpcDialogue (this : t W) (entityId : string) : Js W unit :=
  console_log ("Generating dialogue for entity: " +:+ entityId) ;;
  Js.try_catch (generateNpcDialogue_try this entityId)
    (generateNpcDialogue_catch this entityId).
End Methods.
End AIManager.

(** ** The collaborators of the test suite *)

Module Mocks.

(** [MockGameAdapter]: every [jest.fn()] returns, the promises resolve. *)
Definition MockGameAdapter : GameAdapter unit := {|
  playAudio := λ _ _ w, (Normal tt, w);
  showDialogue := λ _ _ w, (Normal tt, w);
  getGameState := λ w,
    (Normal {| location := "the Whispering Woods"; timeOfDay := "dusk" |}, w);
  getPlayerState := λ w,
    (Normal {| player_name := "Eldrin"; level := {| Number_toString := "5" |} |}, w);
  getEntityState := λ _ w,
    (Normal {| entity_name := "Mysterious Old Man";
               personality := Some "cryptic and wise" |}, w)
|}.

(** A host that does not know the entity. *)
Definition LostEntityAdapter : GameAdapter unit := {|
  playAudio := playAudio MockGameAdapter;
  showDialogue := showDialogue MockGameAdapter;
  getGameState := getGameState MockGameAdapter;
  getPlayerState := getPlayerState MockGameAdapter;
  getEntityState := λ _ w, (Throw (mkError "no such entity"), w)
|}.

(** A host whose dialogue box is broken and whose entity lookup fails. *)
Definition BrokenAdapter : GameAdapter unit := {|
  playAudio := λ _ _ w, (Normal tt, w);
  showDialogue := λ _ _ w, (Throw (mkError "dialogue box is gone"), w);
  getGameState := getGameState MockGameAdapter;
  getPlayerState := getPlayerState MockGameAdapter;
  getEntityState := λ _ w, (Throw (mkError "no such entity"), w)
|}.

(** [jest.mock('@google/genai')] and [jest.mock('cross-fetch')]: the SDK
    constructor accepts whatever it is given, [generateContent] and
    [fetch] settle the way the test set them up. *)
Definition externals (env : gmap string string)
    (generated : Completion GenerateContentResponse)
    (fetched : Completion Response) : Externals unit := {|
  process_env := λ _, env;
  new_GoogleGenAI := λ apiKey w, (Normal {| genai_apiKey := apiKey |}, w);
  models_generateContent := λ _ _ w, (generated, w);
  fetch := λ _ _ w, (fetched, w)
|}.

(** [{ candidates: [{ content: { parts: [{ text }] } }] }] *)
Definition reply (t : string) : GenerateContentResponse :=
  {| candidates := Some [ {| content := Some
       {| role := None; parts := Some [ {| text := Some t |} ] |} |} ] |}.

(** [{ ok: true, arrayBuffer: () => Promise.resolve(audio) }] *)
Definition audio_response (audio : ArrayBuffer) : Response :=
  {| status := 200;
     response_text := Throw (mkError "body is not text");
     response_arrayBuffer := Normal audio |}.

(** [{ ok: false, status: 401, text: () => Promise.resolve('Unauthorized') }] *)
Definition unauthorized : Response :=
  {| status := 401;
     response_text := Normal "Unauthorized";
     response_arrayBuffer := Throw (mkError "no audio") |}.

(** [new ArrayBuffer(128)] *)
Definition audioData : ArrayBuffer := replicate 128 Byte.x00.

(** [{ candidates: [] }], e.g. content filtered. *)
Definition no_reply : GenerateContentResponse := {| candidates := Some [] |}.

Definition llm : GeminiService.t :=
  {| GeminiService.genAI := {| genai_apiKey := Some "fake-gemini-key" |};
     GeminiService.modelName := "test-model-from-options" |}.

Definition tts : ElevenLabsTTSService.t :=
  {| ElevenLabsTTSService.apiKey := "fake-elevenlabs-key";
     ElevenLabsTTSService.voiceId := "21m00Tcm4TlvDq8ikWAM";
     ElevenLabsTTSService.modelId := "eleven_multilingual_v2" |}.

Definition aiManager (adapter : GameAdapter unit) : AIManager.t unit :=
  {| AIManager.adapter := adapter;
     AIManager.llmService := llm;
     AIManager.ttsService := tts |}.

(** Both providers answer. *)
Definition both_succeed : Externals unit :=
  externals ∅ (Normal (reply "Greetings, traveler."))
    (Normal (audio_response audioData)).

(** The text provider has nothing to say. *)
Definition text_filtered : Externals unit :=
  externals ∅ (Normal no_reply) (Normal (audio_response audioData)).

(** The text provider answers, the speech provider refuses. *)
Definition speech_refused : Externals unit :=
  externals ∅ (Normal (reply "My voice is gone, but my words remain."))
    (Normal unauthorized).

(** Both providers are unreachable. *)
Definition offline : Externals unit :=
  externals ∅ (Throw (mkError "API failure")) (Throw (mkError "Network failure")).

(** [process.env.ELEVENLABS_MODEL_ID = 'env-var-model'] *)
Definition with_env_model : Externals unit :=
  externals {[ "ELEVENLABS_MODEL_ID" := "env-var-model" ]}
    (Normal no_reply) (Normal (audio_response audioData)).

(** [process.env.ELEVENLABS_MODEL_ID = ''] *)
Definition with_empty_env_model : Externals unit :=
  externals {[ "ELEVENLABS_MODEL_ID" := "" ]}
    (Normal no_reply) (Normal (audio_response audioData)).

(** The prompt built from the records of [MockGameAdapter]. *)
Definition old_man_prompt : string :=
  AIManager.prompt
    {| entity_name := "Mysterious Old Man"; personality := Some "cryptic and wise" |}
    {| player_name := "Eldrin"; level := {| Number_toString := "5" |} |}
    {| location := "the Whispering Woods"; timeOfDay := "dusk" |}.

(** [await aiManager.generateNpcDialogue('npc-1')] *)
Definition dialogue (ext : Externals unit) (adapter : GameAdapter unit)
    : Run unit unit :=
  AIManager.generateNpcDialogue ext (aiManager adapter) "npc-1" tt.
End Mocks.

(** ** Reading a trace *)

(** A value of type [string | undefined] that counts as given: a string
    that is not empty. *)
Definition given (s : option string) : option string :=
  match s with
  | Some (String c s) => Some (String c s)
  | _ => None
  end.

(** The priority chain in the spec's words: the constructor argument when
    given, else the environment variable when given, else the default. *)
Definition resolve_by_priority (argument environment : option string)
    (default : string) : string :=
  match given argument with
  | Some m => m
  | None =>
      match given environment with
      | Some m => m
      | None => default
      end
  end.

(** [json[key]] on an object. *)
Definition json_field (key : string) (j : Json) : option Json :=
  match j with
  | JObject fields => snd <$> List.find (λ kv, bool_decide (kv.1 = key)) fields
  | _ => None
  end.

(** The requests sent to the speech provider, in order. *)
Definition fetches (tr : list Event) : list (string * RequestInit) :=
  omap (λ ev, match ev with Fetch url init _ => Some (url, init) | _ => None end) tr.

(** The requests sent to the text provider, in order. *)
Definition generations (tr : list Event) : list GenerateContentParameters :=
  omap (λ ev, match ev with GenerateContent params _ => Some params | _ => None end) tr.

(** The diagnostics written with [console.error], in order. *)
Definition diagnostics (tr : list Event) : list (string * LogDetail) :=
  omap (λ ev, match ev with ConsoleError msg d => Some (msg, d) | _ => None end) tr.

(** What the adapter was told to do, in order. *)
Inductive Instruction :=
| Show (text entityId : string)
| Play (audioData : ArrayBuffer) (entityId : string).

Definition instructions (tr : list Event) : list Instruction :=
  omap (λ ev, match ev with
              | ShowDialogue text entityId _ => Some (Show text entityId)
              | PlayAudio audioData entityId _ => Some (Play audioData entityId)
              | _ => None
              end) tr.

(** The texts handed to [generateSpeech], in order. *)
Definition spoken (tr : list Event) : list string :=
  omap (λ ev, match ev with GenerateSpeech text _ => Some text | _ => None end) tr.

(** The prompts handed to [generateText], in order. *)
Definition prompted (tr : list Event) : list string :=
  omap (λ ev, match ev with GenerateText prompt _ => Some prompt | _ => None end) tr.

(** ** How the provider calls settle *)

(** What [generateText] makes of the way [generateContent] settled: the
    text it returns, or the diagnostic it logs before returning [null]. *)
Definition text_settles (c : Completion GenerateContentResponse)
    : string * LogDetail + string :=
  match c with
  | Normal result =>
      match given (GeminiService.first_text result) with
      | Some t => inr t
      | None =>
          inl ("No text generated from Gemini API or invalid response structure. Response:",
               DetailJson result)
      end
  | Throw e => inl ("Error calling Gemini API:", DetailError e)
  end.

(** What [generateSpeech] makes of the way [fetch] settled: the audio it
    returns, or the error it catches before returning [null]. *)
Definition speech_settles (c : Completion Response) : JsError + ArrayBuffer :=
  match c with
  | Normal response =>
      if ok response then
        match response_arrayBuffer response with
        | Normal audioData => inr audioData
        | Throw e => inl e
        end
      else
        match response_text response with
        | Normal errorBody =>
            inl (mkError ("HTTP error! status: " +:+ pretty (status response)
                          +:+ ", body: " +:+ errorBody))
        | Throw e => inl e
        end
  | Throw e => inl e
  end.

(** The provider response carries a usable text, in the spec's words: it
    has a first candidate whose content has a first part with a text that
    is not empty. *)
Definition carries_text (result : GenerateContentResponse) (t : string) : Prop :=
  ∃ c cs ct p ps,
    candidates result = Some (c :: cs) ∧ content c = Some ct ∧
    parts ct = Some (p :: ps) ∧ text p = Some t ∧ t ≠ "".

(** ** The paths through [generateNpcDialogue] *)

Section Paths.
Context {W : Type} (this : AIManager.t W) (entityId : string).

(** What a call of [generateText] leaves in the trace, given what it made
    of the provider's answer. *)
Definition text_events (prompt : string) (c : Completion GenerateContentResponse)
    (settled : string * LogDetail + string) : list Event :=
  [ConsoleLog ("Sending prompt to Gemini using model "
               +:+ GeminiService.modelName (AIManager.llmService this) +:+ "...");
   GenerateContent (GeminiService.request (AIManager.llmService this) prompt) c]
  ++ match settled with
     | inr _ => []
     | inl (msg, detail) => [ConsoleError msg detail]
     end.

(** What a call of [generateSpeech] leaves in the trace, given what it
    made of the provider's answer. *)
Definition speech_events (text : string) (c : Completion Response)
    (settled : JsError + ArrayBuffer) : list Event :=
  [ConsoleLog ("Requesting TTS from ElevenLabs for: " +:+ dquote +:+ text +:+ dquote);
   Fetch ("https://api.elevenlabs.io/v1/text-to-speech/"
          +:+ ElevenLabsTTSService.voiceId (AIManager.ttsService this))
     (ElevenLabsTTSService.request (AIManager.ttsService this) text) c]
  ++ match settled with
     | inr _ => []
     | inl e => [ConsoleError "Error calling ElevenLabs TTS API:" (DetailError e)]
     end.

(** The trace up to the moment [generateText] has settled. *)
Definition prompted_events (npcState : EntityState) (playerState : PlayerState)
    (gameState : GameState) (c : Completion GenerateContentResponse)
    (settled : string * LogDetail + string) : list Event :=
  [GetEntityState entityId (Normal npcState);
   GetPlayerState (Normal playerState);
   GetGameState (Normal gameState)]
  ++ text_events (AIManager.prompt npcState playerState gameState) c settled
  ++ [GenerateText (AIManager.prompt npcState playerState gameState)
        (Normal match settled with inr t => Some t | inl _ => None end)].

(** The runs of the [try] block: it is linear, and leaves at the first
    step that fails. *)
Inductive attempt_path : Run W unit → Prop :=
| no_entity e w' :
    attempt_path (mkRun (Throw e) w' [GetEntityState entityId (Throw e)])
| no_player npcState e w' :
    attempt_path
      (mkRun (Throw e) w'
         [GetEntityState entityId (Normal npcState); GetPlayerState (Throw e)])
| no_game npcState playerState e w' :
    attempt_path
      (mkRun (Throw e) w'
         [GetEntityState entityId (Normal npcState);
          GetPlayerState (Normal playerState); GetGameState (Throw e)])
| no_text npcState playerState gameState c msg detail w' :
    text_settles c = inl (msg, detail) →
    attempt_path
      (mkRun (Throw (mkError "Failed to generate dialogue text.")) w'
         (prompted_events npcState playerState gameState c (inl (msg, detail))))
| no_display npcState playerState gameState c t e w' :
    text_settles c = inr t →
    attempt_path
      (mkRun (Throw e) w'
         (prompted_events npcState playerState gameState c (inr t)
          ++ [ShowDialogue t entityId (Throw e)]))
| no_audio npcState playerState gameState c t c' e w' :
    text_settles c = inr t →
    speech_settles c' = inl e →
    attempt_path
      (mkRun (Normal tt) w'
         (prompted_events npcState playerState gameState c (inr t)
          ++ [ShowDialogue t entityId (Normal tt)]
          ++ speech_events t c' (inl e)
          ++ [GenerateSpeech t (Normal None);
              ConsoleError "Failed to generate audio." NoDetail]))
| played npcState playerState gameState c t c' b w' :
    text_settles c = inr t →
    speech_settles c' = inr b →
    attempt_path
      (mkRun (Normal tt) w'
         (prompted_events npcState playerState gameState c (inr t)
          ++ [ShowDialogue t entityId (Normal tt)]
          ++ speech_events t c' (inr b)
          ++ [GenerateSpeech t (Normal (Some b));
              PlayAudio b entityId (Normal tt)]))
| not_played npcState playerState gameState c t c' b e w' :
    text_settles c = inr t →
    speech_settles c' = inr b →
    attempt_path
      (mkRun (Throw e) w'
         (prompted_events npcState playerState gameState c (inr t)
          ++ [ShowDialogue t entityId (Normal tt)]
          ++ speech_events t c' (inr b)
          ++ [GenerateSpeech t (Normal (Some b));
              PlayAudio b entityId (Throw e)])).
End Paths.

(** ** Claims that the code does not meet, as the spec states them *)

(** A missing or empty API key makes the constructor of the text client
    throw. *)
Definition gemini_key_is_required {W} (ext : Externals W) : Prop :=
  ∀ apiKey modelName w,
    given apiKey = None →
    ∃ e, completion (GeminiService.new ext apiKey modelName w) = Throw e.

(** Whatever the [try] block of [generateNpcDialogue] throws is logged and
    answered with the fallback display, and the call returns normally. *)
Definition caught_and_never_escapes {W} (ext : Externals W) (this : AIManager.t W)
    : Prop :=
  ∀ entityId w error,
    let r := AIManager.generateNpcDialogue ext this entityId w in
    completion (AIManager.generateNpcDialogue_try ext this entityId w) = Throw error →
    ConsoleError ("[AIManager] Error generating dialogue for " +:+ entityId +:+ ":")
      (DetailError error) ∈ events r
    ∧ Show AIManager.fallback entityId ∈ instructions (events r)
    ∧ completion r = Normal tt.

(** ** More ways to read a trace *)

(** The state queries put to the adapter, in order. *)
Inductive Query :=
| QueryEntity (entityId : string)
| QueryPlayer
| QueryGame.

Definition queries (tr : list Event) : list Query :=
  omap (λ ev, match ev with
              | GetEntityState entityId _ => Some (QueryEntity entityId)
              | GetPlayerState _ => Some QueryPlayer
              | GetGameState _ => Some QueryGame
              | _ => None
              end) tr.

(** The handles asked from the Gemini SDK, by the key they were asked
    with, in order. *)
Definition handles (tr : list Event) : list (option string) :=
  omap (λ ev, match ev with NewGoogleGenAI apiKey _ => Some apiKey | _ => None end) tr.

(** The lines written with [console.log], in order. *)
Definition logged (tr : list Event) : list string :=
  omap (λ ev, match ev with ConsoleLog msg => Some msg | _ => None end) tr.

(** [String.prototype.endsWith]. *)
Fixpoint endsWith (s suffix : string) : bool :=
  bool_decide (s = suffix) ||
  match s with
  | EmptyString => false
  | String _ s' => endsWith s' suffix
  end.

(** ** The end-to-end runner ([src/run.ts]) *)

Module Runner.

(** What the runner takes from the machine it runs on: the console, the
    file system ([fs/promises]) and the audio player ([play-sound]).  A
    call of [player.play] either throws, or ends by handing its callback an
    error or nothing. *)
Record Machine (W : Type) := {
  console_out : string → W → W;
  console_err : string → JsError → W → W;
  fs_writeFile : string → ArrayBuffer → W → Completion unit * W;
  player_play : string → W → Completion (option JsError) * W
}.
Arguments console_out {W}.
Arguments console_err {W}.
Arguments fs_writeFile {W}.
Arguments player_play {W}.

Section Adapter.
Context {W : Type} (machine : Machine W).

(** [path.resolve(__dirname, '../output.mp3')] *)
Context (outputPath : string).

(** [TestRunnerAdapter.playAudio] *)
Definition playAudio (audioData : ArrayBuffer) (entityId : string)
    : W → Completion unit * W :=
  λ w,
    let w := console_out machine (LF +:+ "Saving audio to: " +:+ outputPath) w in
    let '(written, w) := fs_writeFile machine outputPath audioData w in
    match written with
    | Throw e => (Throw e, w)
    | Normal _ =>
        let w := console_out machine
                   "Audio saved successfully. Now attempting to play..." w in
        let '(started, w) := player_play machine outputPath w in
        match started with
        | Throw e => (Throw e, w)
        | Normal (Some err) =>
            (* We resolve anyway because audio playback is not a critical
               failure for this test script. *)
            (Normal tt,
             console_err machine
               "Could not play audio. Please ensure you have a compatible audio player installed and in your PATH (e.g., 'mpg123', 'afplay', 'mplayer'). Error:"
               err w)
        | Normal None => (Normal tt, console_out machine "Playback finished." w)
        end
    end.

(** [TestRunnerAdapter.showDialogue] *)
Definition showDialogue (text entityId : string) : W → Completion unit * W :=
  λ w,
    let w := console_out machine (LF +:+ "[DIALOGUE for " +:+ entityId +:+ "]") w in
    (Normal tt, console_out machine ("> " +:+ text) w).

(** [TestRunnerAdapter.getGameState] *)
Definition getGameState : W → Completion GameState * W :=
  λ w, (Normal {| location := "a tavern full of adventurers";
                  timeOfDay := "evening" |}, w).

(** [TestRunnerAdapter.getPlayerState] *)
Definition getPlayerState : W → Completion PlayerState * W :=
  λ w, (Normal {| player_name := "Cek";
                  level := {| Number_toString := "10" |} |}, w).

(** [TestRunnerAdapter.getEntityState]; the entity id is not looked at. *)
Definition getEntityState (entityId : string) : W → Completion EntityState * W :=
  λ w, (Normal {| entity_name := "a grizzled bartender";
                  personality :=
                    Some "gruff on the outside but with a heart of gold" |}, w).

(** [class TestRunnerAdapter implements GameAdapter]; [stopAudio] and
    [hideDialogue], which only write a line to the console, are not part of
    what the plugin calls. *)
Definition TestRunnerAdapter : GameAdapter W :=
  Build_GameAdapter W playAudio showDialogue getGameState getPlayerState getEntityState.
End Adapter.

Section Script.
Context {W : Type} (ext : Externals W) (machine : Machine W) (outputPath : string).

(** [async function main()], with the four values read from [process.env]
    when the module was loaded. *)
Definition main (GEMINI_API_KEY ELEVENLABS_API_KEY GEMINI_MODEL_NAME
    ELEVENLABS_MODEL_ID : option string) : Js W unit :=
  console_log "--- Starting AI Plugin E2E Test ---" ;;
  let adapter := TestRunnerAdapter machine outputPath in
  aiManager <- AIManager.new ext adapter {|
    AIManager.geminiApiKey := GEMINI_API_KEY;
    AIManager.elevenLabsApiKey := ELEVENLABS_API_KEY;
    AIManager.geminiModelName := GEMINI_MODEL_NAME;
    AIManager.elevenLabsModelId := ELEVENLABS_MODEL_ID
  |} ;;
  AIManager.generateNpcDialogue ext aiManager "bartender-1" ;;
  console_log (LF +:+ "--- Test Finished ---").

(** The module body, once [dotenv] has filled [process.env]: the guard on
    the two keys, then [main().catch(...)].  The value is the code handed to
    [process.exit], if it is called. *)
Definition script : Js W (option Z) :=
  env <- Js.read (process_env ext) ;;
  let GEMINI_API_KEY := env !! "GEMINI_API_KEY" in
  let ELEVENLABS_API_KEY := env !! "ELEVENLABS_API_KEY" in
  let GEMINI_MODEL_NAME := env !! "GEMINI_MODEL_NAME" in
  let ELEVENLABS_MODEL_ID := env !! "ELEVENLABS_MODEL_ID" in
  if negb (truthy GEMINI_API_KEY) || negb (truthy ELEVENLABS_API_KEY) then
    Js.throw (mkError
      "Please provide GEMINI_API_KEY and ELEVENLABS_API_KEY in a .env file.")
  else
    Js.try_catch
      (main GEMINI_API_KEY ELEVENLABS_API_KEY GEMINI_MODEL_NAME ELEVENLABS_MODEL_ID ;;
       Js.ret None)
      (λ error,
         console_error "Test failed with an error:" (DetailError error) ;;
         Js.ret (Some 1%Z)).
End Script.

(** A machine that keeps what is written: the console lines and the
    files.  Its disk may be full and its player may be missing. *)
Record Desk := {
  stdout : list string;
  stderr : list (string * JsError);
  disk : gmap string ArrayBuffer
}.

Definition desk (disk_full : bool) (player_error : option JsError) : Machine Desk := {|
  console_out := λ line w,
    {| stdout := stdout w ++ [line]; stderr := stderr w; disk := disk w |};
  console_err := λ msg e w,
    {| stdout := stdout w; stderr := stderr w ++ [(msg, e)]; disk := disk w |};
  fs_writeFile := λ path data w,
    if disk_full then (Throw (mkError "ENOSPC: no space left on device"), w)
    else (Normal tt,
          {| stdout := stdout w; stderr := stderr w; disk := <[path := data]> (disk w) |});
  player_play := λ _ w, (Normal player_error, w)
|}.

Definition empty_desk : Desk := {| stdout := []; stderr := []; disk := ∅ |}.

(** The providers as seen from a desk: both answer. *)
Definition providers (env : gmap string string) : Externals Desk := {|
  process_env := λ _, env;
  new_GoogleGenAI := λ apiKey w, (Normal {| genai_apiKey := apiKey |}, w);
  models_generateContent := λ _ _ w, (Normal (Mocks.reply "What'll it be?"), w);
  fetch := λ _ _ w, (Normal (Mocks.audio_response Mocks.audioData), w)
|}.

(** A [.env] file with both keys. *)
Definition dotenv : gmap string string :=
  {[ "GEMINI_API_KEY" := "gemini-key"; "ELEVENLABS_API_KEY" := "elevenlabs-key" ]}.
End Runner.

(** ** More hosts *)

Module Hosts.

(** A host that knows the entity, whose dialogue box throws. *)
Definition NoDialogueBox : GameAdapter unit := {|
  playAudio := playAudio Mocks.MockGameAdapter;
  showDialogue := λ _ _ w, (Throw (mkError "dialogue box is gone"), w);
  getGameState := getGameState Mocks.MockGameAdapter;
  getPlayerState := getPlayerState Mocks.MockGameAdapter;
  getEntityState := getEntityState Mocks.MockGameAdapter
|}.

(** A host whose audio device rejects every playback. *)
Definition Muted : GameAdapter unit := {|
  playAudio := λ _ _ w, (Throw (mkError "no audio device"), w);
  showDialogue := showDialogue Mocks.MockGameAdapter;
  getGameState := getGameState Mocks.MockGameAdapter;
  getPlayerState := getPlayerState Mocks.MockGameAdapter;
  getEntityState := getEntityState Mocks.MockGameAdapter
|}.

(** An entity without a personality. *)
Definition stranger : EntityState :=
  {| entity_name := "Hooded Figure"; personality := None |}.

(** The options of the test suite, with a model for the speech client. *)
Definition options : AIManager.AIManagerOptions := {|
  AIManager.geminiApiKey := Some "fake-gemini-key";
  AIManager.elevenLabsApiKey := Some "fake-elevenlabs-key";
  AIManager.geminiModelName := Some "test-model-from-options";
  AIManager.elevenLabsModelId := Some "eleven_turbo_v2"
|}.

(** The manager that [new AIManager(adapter, options)] builds from them. *)
Definition manager : AIManager.t unit := {|
  AIManager.adapter := Mocks.MockGameAdapter;
  AIManager.llmService := {|
    GeminiService.genAI := {| genai_apiKey := Some "fake-gemini-key" |};
    GeminiService.modelName := "test-model-from-options" |};
  AIManager.ttsService := {|
    ElevenLabsTTSService.apiKey := "fake-elevenlabs-key";
    ElevenLabsTTSService.voiceId := "21m00Tcm4TlvDq8ikWAM";
    ElevenLabsTTSService.modelId := "eleven_turbo_v2" |}
|}.

(** The request for "Greetings, traveler." of the test suite's speech
    client. *)
Definition greeting_request : string * RequestInit :=
  ("https://api.elevenlabs.io/v1/text-to-speech/21m00Tcm4TlvDq8ikWAM",
   ElevenLabsTTSService.request Mocks.tts "Greetings, traveler.").
End Hosts.

(** * Properties *)

(** ** Model resolution *)

Lemma given_nonempty s m : given s = Some m → s = Some m ∧ m ≠ "".
Proof. destruct s as [[|c s]|]; simpl; intros [= <-]; done. Qed.

(** The [||] chain of the constructors is the priority chain of the spec. *)
Lemma js_or_chain argument environment default :
  js_or_literal (js_or argument environment) default
  = resolve_by_priority argument environment default.
Proof.
  unfold js_or, resolve_by_priority.
  destruct argument as [[|c s]|]; simpl; try done;
    by destruct environment as [[|c' s']|].
Qed.

Lemma resolve_by_priority_nonempty argument environment default :
  default ≠ "" → resolve_by_priority argument environment default ≠ "".
Proof.
  intros Hd. unfold resolve_by_priority.
  destruct (given argument) as [m|] eqn:Ha.
  { by apply given_nonempty in Ha as [_ ?]. }
  destruct (given environment) as [m|] eqn:He; [|done].
  by apply given_nonempty in He as [_ ?].
Qed.

Section Constructors.
Context {W : Type} (ext : Externals W).

Lemma tts_new_run apiKey modelId (w : W) :
  ElevenLabsTTSService.new ext apiKey modelId w =
  match given apiKey with
  | Some key =>
      mkRun (Normal {|
        ElevenLabsTTSService.apiKey := key;
        ElevenLabsTTSService.voiceId := "21m00Tcm4TlvDq8ikWAM";
        ElevenLabsTTSService.modelId :=
          resolve_by_priority modelId (process_env ext w !! "ELEVENLABS_MODEL_ID")
            "eleven_multilingual_v2" |}) w []
  | None => mkRun (Throw (mkError "ElevenLabs API key is required.")) w []
  end.
Proof.
  destruct apiKey as [[|c key]|]; try done.
  cbn. by rewrite js_or_chain.
Qed.

Lemma gemini_new_run apiKey modelName (w : W) :
  GeminiService.new ext apiKey modelName w =
  let sdk := new_GoogleGenAI ext apiKey w in
  match sdk.1 with
  | Normal handle =>
      mkRun (Normal {|
        GeminiService.genAI := handle;
        GeminiService.modelName :=
          resolve_by_priority modelName (process_env ext sdk.2 !! "GEMINI_MODEL_NAME")
            "gemini-1.5-flash" |}) sdk.2 [NewGoogleGenAI apiKey sdk.1]
  | Throw e => mkRun (Throw e) sdk.2 [NewGoogleGenAI apiKey sdk.1]
  end.
Proof.
  unfold GeminiService.new, Js.bind, Js.perform, Js.read, Js.ret. cbn.
  destruct (new_GoogleGenAI ext apiKey w) as [[handle|e] w']; cbn; [|done].
  by rewrite js_or_chain.
Qed.
End Constructors.

(** ** The provider clients *)

Section Clients.
Context {W : Type} (ext : Externals W).

(** [generateText] in closed form: one log line, one provider call, and
    a diagnostic exactly when no text comes back. *)
Lemma generateText_run this prompt (w : W) :
  GeminiService.generateText ext this prompt w =
  let request := GeminiService.request this prompt in
  let '(c, w') := models_generateContent ext (GeminiService.genAI this) request w in
  mkRun
    (Normal match text_settles c with inr t => Some t | inl _ => None end)
    w'
    (ConsoleLog ("Sending prompt to Gemini using model "
                 +:+ GeminiService.modelName this +:+ "...")
     :: GenerateContent request c
     :: match text_settles c with
        | inr _ => []
        | inl (msg, detail) => [ConsoleError msg detail]
        end).
Proof.
  unfold GeminiService.generateText, Js.bind, Js.try_catch, Js.perform. cbn.
  destruct (models_generateContent ext _ _ w) as [[result|e] w']; cbn; [|done].
  by destruct (GeminiService.first_text result) as [[|c s]|].
Qed.

(** [generateSpeech] in closed form: one log line, one request, and a
    diagnostic exactly when no audio comes back. *)
Lemma generateSpeech_run this text (w : W) :
  ElevenLabsTTSService.generateSpeech ext this text w =
  let url := "https://api.elevenlabs.io/v1/text-to-speech/"
             +:+ ElevenLabsTTSService.voiceId this in
  let request := ElevenLabsTTSService.request this text in
  let '(c, w') := fetch ext url request w in
  mkRun
    (Normal match speech_settles c with inr b => Some b | inl _ => None end)
    w'
    (ConsoleLog ("Requesting TTS from ElevenLabs for: "
                 +:+ dquote +:+ text +:+ dquote)
     :: Fetch url request c
     :: match speech_settles c with
        | inr _ => []
        | inl e => [ConsoleError "Error calling ElevenLabs TTS API:" (DetailError e)]
        end).
Proof.
  unfold ElevenLabsTTSService.generateSpeech, Js.bind, Js.try_catch, Js.perform.
  cbn -[pretty].
  destruct (fetch ext _ _ w) as [[response|e] w']; cbn -[pretty]; [|done].
  destruct (ok response); cbn -[pretty].
  - by destruct (response_arrayBuffer response).
  - by destruct (response_text response).
Qed.
End Clients.

Lemma carries_text_first_text result t :
  carries_text result t ↔ given (GeminiService.first_text result) = Some t.
Proof.
  unfold carries_text, GeminiService.first_text. split.
  - intros (c & cs & ct & p & ps & -> & Hc & Hp & Ht & Hne). cbn.
    rewrite Hc. cbn. rewrite Hp. cbn. rewrite Ht. by destruct t.
  - intros [Hg Hne]%given_nonempty.
    destruct (candidates result) as [[|c cs]|] eqn:Hcs; try done. cbn in Hg.
    destruct (content c) as [ct|] eqn:Hc; try done. cbn in Hg.
    destruct (parts ct) as [[|p ps]|] eqn:Hp; try done. cbn in Hg.
    by exists c, cs, ct, p, ps.
Qed.

Lemma speech_settles_audio c audio :
  speech_settles c = inr audio
  ↔ ∃ response, c = Normal response ∧ (200 ≤ status response ≤ 299)%Z
      ∧ response_arrayBuffer response = Normal audio.
Proof.
  unfold speech_settles, ok. split.
  - destruct c as [response|e]; [|done].
    destruct (bool_decide_reflect (200 ≤ status response)%Z); cbn -[pretty];
      [destruct (bool_decide_reflect (status response ≤ 299)%Z); cbn -[pretty]|].
    + destruct (response_arrayBuffer response) as [b|e] eqn:Hb; [|done].
      intros [= <-]. by exists response.
    + by destruct (response_text response).
    + by destruct (response_text response).
  - intros (response & -> & [Hlo Hhi] & ->).
    by rewrite !bool_decide_eq_true_2.
Qed.

Section ClientClaims.
Context {W : Type} (ext : Externals W).

(** C5. [generateText] returns the text [t] exactly when the provider call
    resolves with a response whose first candidate's first content part
    carries the non-empty text [t]; in every other case (no candidate, no
    content, no or empty text part, a provider call that throws) it
    returns [null] after logging one diagnostic; it never throws. *)
Theorem generateText_text_or_null this prompt (w : W) :
  let provider :=
    (models_generateContent ext (GeminiService.genAI this)
       (GeminiService.request this prompt) w).1 in
  let r := GeminiService.generateText ext this prompt w in
  (∀ t, completion r = Normal (Some t)
        ↔ ∃ result, provider = Normal result ∧ carries_text result t)
  ∧ (completion r = Normal None
     ↔ ¬ ∃ result t, provider = Normal result ∧ carries_text result t)
  ∧ (completion r = Normal None → ∃ msg detail, diagnostics (events r) = [(msg, detail)])
  ∧ (∀ e, completion r ≠ Throw e).
Proof.
  cbn zeta. rewrite generateText_run. cbn.
  destruct (models_generateContent ext _ _ w) as [[result|e] w']; cbn.
  - destruct (given (GeminiService.first_text result)) as [t0|] eqn:Hg.
    + pose proof (proj2 (carries_text_first_text result t0) Hg) as Hc.
      split; [|split; [|split]].
      * intros t. split.
        -- intros [= <-]. by exists result.
        -- intros (result' & [= <-] & Ht%carries_text_first_text). congruence.
      * split; [done|]. intros Hn. exfalso. apply Hn. by exists result, t0.
      * done.
      * done.
    + split; [|split; [|split]].
      * intros t. split; [done|].
        intros (result' & [= <-] & Ht%carries_text_first_text). congruence.
      * split; [|done].
        intros _ (result' & t & [= <-] & Ht%carries_text_first_text). congruence.
      * intros _. by eexists _, _.
      * done.
  - split; [|split; [|split]].
    + intros t. split; [done|]. by intros (result & ? & _).
    + split; [|done]. by intros _ (result & t & ? & _).
    + intros _. by eexists _, _.
    + done.
Qed.

(** C6. A speech client built by its constructor answers every
    [generateSpeech(text)] with exactly one request: a POST to the fixed
    endpoint followed by the fixed voice id, with header [xi-api-key] set
    to the configured key and the body
    [{text, model_id, voice_settings: {stability: 0.5, similarity_boost: 0.5}}].
    It returns the bytes of the response body exactly when the response
    has a 2xx status and its body can be read; on any other status, or
    when the request or the reading of the body throws, it returns [null]
    after logging one diagnostic; it never throws. *)
Theorem generateSpeech_one_post apiKey modelId (w0 : W) this text (w : W) :
  completion (ElevenLabsTTSService.new ext apiKey modelId w0) = Normal this →
  let url := "https://api.elevenlabs.io/v1/text-to-speech/21m00Tcm4TlvDq8ikWAM" in
  let r := ElevenLabsTTSService.generateSpeech ext this text w in
  ∃ init,
    fetches (events r) = [(url, init)]
    ∧ method init = "POST"
    ∧ headers init !! "xi-api-key" = apiKey
    ∧ body init = JObject [
        ("text", JString text);
        ("model_id", JString (ElevenLabsTTSService.modelId this));
        ("voice_settings", JObject [
           ("stability", JNumber (1 # 2));
           ("similarity_boost", JNumber (1 # 2)) ]) ]
    ∧ (∀ audio, completion r = Normal (Some audio)
         ↔ ∃ response, (fetch ext url init w).1 = Normal response
             ∧ (200 ≤ status response ≤ 299)%Z
             ∧ response_arrayBuffer response = Normal audio)
    ∧ (completion r = Normal None
         ↔ ¬ ∃ response audio, (fetch ext url init w).1 = Normal response
             ∧ (200 ≤ status response ≤ 299)%Z
             ∧ response_arrayBuffer response = Normal audio)
    ∧ (completion r = Normal None →
         ∃ msg detail, diagnostics (events r) = [(msg, detail)])
    ∧ (∀ e, completion r ≠ Throw e).
Proof.
  rewrite tts_new_run. destruct (given apiKey) as [key|] eqn:Hkey; [|done].
  apply given_nonempty in Hkey as [-> _]. intros [= <-]. cbn zeta.
  rewrite generateSpeech_run.
  exists (ElevenLabsTTSService.request
            {| ElevenLabsTTSService.apiKey := key;
               ElevenLabsTTSService.voiceId := "21m00Tcm4TlvDq8ikWAM";
               ElevenLabsTTSService.modelId :=
                 resolve_by_priority modelId
                   (process_env ext w0 !! "ELEVENLABS_MODEL_ID")
                   "eleven_multilingual_v2" |} text).
  cbn -[pretty]. set (init := ElevenLabsTTSService.request _ _).
  destruct (fetch ext _ init w) as [provider w'].
  cbn -[pretty speech_settles].
  pose proof (speech_settles_audio provider) as Haudio.
  destruct (speech_settles provider) as [e|audio0] eqn:Hs.
  - split; [done|]. split; [done|]. split; [done|]. split; [done|].
    split; [|split; [|split]].
    + intros audio. rewrite <- Haudio. done.
    + split; [|done]. intros _ (response & audio & H).
      assert (inl e = inr audio) by (apply Haudio; eauto). done.
    + intros _. by eexists _, _.
    + done.
  - split; [done|]. split; [done|]. split; [done|]. split; [done|].
    split; [|split; [|split]].
    + intros audio. rewrite <- Haudio. split; congruence.
    + split; [done|]. intros Hn. exfalso. apply Hn.
      destruct (proj1 (Haudio audio0) eq_refl) as (response & ?). eauto.
    + done.
    + done.
Qed.
End ClientClaims.

(** ** Construction *)

Section ConstructionClaims.
Context {W : Type} (ext : Externals W).

(** C7. Both constructors resolve the model identifier once, by the
    priority chain constructor argument, else environment variable, else
    the fixed default ("eleven_multilingual_v2" for the speech client,
    "gemini-1.5-flash" for the text client); every later request of the
    instance carries that identifier, whatever the environment holds by
    then. *)
Theorem model_resolved_at_construction :
  (∀ apiKey modelId (w : W) this,
     completion (ElevenLabsTTSService.new ext apiKey modelId w) = Normal this →
     ElevenLabsTTSService.modelId this
       = resolve_by_priority modelId (process_env ext w !! "ELEVENLABS_MODEL_ID")
           "eleven_multilingual_v2"
     ∧ ∀ text (w' : W),
         json_field "model_id"
           <$> (body ∘ snd <$> fetches
                  (events (ElevenLabsTTSService.generateSpeech ext this text w')))
         = [Some (JString (ElevenLabsTTSService.modelId this))])
  ∧ (∀ apiKey modelName (w : W) this,
       let r := GeminiService.new ext apiKey modelName w in
       completion r = Normal this →
       GeminiService.modelName this
         = resolve_by_priority modelName
             (process_env ext (world r) !! "GEMINI_MODEL_NAME") "gemini-1.5-flash"
       ∧ ∀ prompt (w' : W),
           model <$> generations
                       (events (GeminiService.generateText ext this prompt w'))
           = [GeminiService.modelName this]).
Proof.
  split.
  - intros apiKey modelId w this. rewrite tts_new_run.
    destruct (given apiKey) as [key|]; [|done]. intros [= <-]. split; [done|].
    intros text w'. rewrite generateSpeech_run. cbn -[pretty speech_settles].
    destruct (fetch ext _ _ w') as [c w'']. by destruct (speech_settles c).
  - intros apiKey modelName w this. cbn zeta. rewrite gemini_new_run. cbn zeta.
    destruct (new_GoogleGenAI ext apiKey w) as [[handle|e] w1];
      cbn -[GeminiService.generateText]; [|done].
    intros [= <-]. split; [done|].
    intros prompt w'. rewrite generateText_run. cbn -[text_settles].
    destruct (models_generateContent ext _ _ w') as [c w''].
    by destruct (text_settles c) as [[msg d]|t].
Qed.

(** C8. The constructor of the speech client throws exactly when the API
    key is absent or empty, and it throws at once: nothing has been logged
    or sent and the world is as it was.  With any non-empty key it returns
    an instance holding that key, again without any interaction with the
    outside world. *)
Theorem tts_new_throws_iff_no_key apiKey modelId (w : W) :
  let r := ElevenLabsTTSService.new ext apiKey modelId w in
  ((∃ e, completion r = Throw e) ↔ apiKey = None ∨ apiKey = Some "")
  ∧ (∀ e, completion r = Throw e → e = mkError "ElevenLabs API key is required.")
  ∧ (∀ key, apiKey = Some key → key ≠ "" →
       ∃ this, completion r = Normal this ∧ ElevenLabsTTSService.apiKey this = key)
  ∧ events r = [] ∧ world r = w.
Proof.
  cbn zeta. rewrite tts_new_run.
  destruct apiKey as [[|c key]|]; cbn; (split; [|split; [|split; [|done]]]).
  - split; [auto|]. intros _. by eexists.
  - by intros e [= <-].
  - by intros key [= <-].
  - split; [|by intros [|]]. by intros [e ?].
  - done.
  - intros key' [= <-] _. by eexists.
  - split; [auto|]. intros _. by eexists.
  - by intros e [= <-].
  - done.
Qed.

(** C9 (amended). The constructor of the text client does not look at the
    API key.  It hands the key, be it absent or empty, to the SDK
    constructor unchanged, and it throws exactly when, and what, that
    constructor throws. *)
Theorem gemini_new_forwards_key apiKey modelName (w : W) :
  let r := GeminiService.new ext apiKey modelName w in
  events r = [NewGoogleGenAI apiKey (new_GoogleGenAI ext apiKey w).1]
  ∧ (∀ e, completion r = Throw e ↔ (new_GoogleGenAI ext apiKey w).1 = Throw e)
  ∧ (∀ handle, (new_GoogleGenAI ext apiKey w).1 = Normal handle →
       ∃ this, completion r = Normal this ∧ GeminiService.genAI this = handle).
Proof.
  cbn zeta. rewrite gemini_new_run. cbn zeta.
  destruct (new_GoogleGenAI ext apiKey w) as [[handle|e] w1]; cbn.
  - split; [done|]. split; [done|]. intros ? [= <-]. by eexists.
  - split; [done|]. split; [|done]. intros e'. by split; intros [= ->].
Qed.

(** C10. An empty string is treated as absent at both levels of the
    chain, in both constructors.  A constructor argument equal to the empty
    string builds what a missing argument builds; with the argument empty
    or missing the instance carries the environment variable when that one
    is set and not empty, and the fixed default when it is empty or unset;
    and the resolved identifier is never the empty string. *)
Theorem empty_model_override_is_absent apiKey (w : W) :
  ElevenLabsTTSService.new ext apiKey (Some "") w
    = ElevenLabsTTSService.new ext apiKey None w
  ∧ GeminiService.new ext apiKey (Some "") w = GeminiService.new ext apiKey None w
  ∧ (∀ modelId this,
       completion (ElevenLabsTTSService.new ext apiKey modelId w) = Normal this →
       ElevenLabsTTSService.modelId this ≠ ""
       ∧ (modelId = Some "" ∨ modelId = None →
          (∀ v, process_env ext w !! "ELEVENLABS_MODEL_ID" = Some v → v ≠ "" →
             ElevenLabsTTSService.modelId this = v)
          ∧ (process_env ext w !! "ELEVENLABS_MODEL_ID" = Some ""
             ∨ process_env ext w !! "ELEVENLABS_MODEL_ID" = None →
             ElevenLabsTTSService.modelId this = "eleven_multilingual_v2")))
  ∧ (∀ modelName this,
       let r := GeminiService.new ext apiKey modelName w in
       completion r = Normal this →
       GeminiService.modelName this ≠ ""
       ∧ (modelName = Some "" ∨ modelName = None →
          (∀ v, process_env ext (world r) !! "GEMINI_MODEL_NAME" = Some v → v ≠ "" →
             GeminiService.modelName this = v)
          ∧ (process_env ext (world r) !! "GEMINI_MODEL_NAME" = Some ""
             ∨ process_env ext (world r) !! "GEMINI_MODEL_NAME" = None →
             GeminiService.modelName this = "gemini-1.5-flash"))).
Proof.
  split; [done|]. split; [done|]. split.
  - intros modelId this. rewrite tts_new_run.
    destruct (given apiKey) as [key|]; [|done]. intros [= <-]. cbn. split.
    + by apply resolve_by_priority_nonempty.
    + intros Hm. unfold resolve_by_priority. split.
      * intros v -> Hv. destruct Hm as [->| ->]; by destruct v.
      * intros He. by destruct Hm as [->| ->], He as [->| ->].
  - intros modelName this. cbn zeta. rewrite gemini_new_run. cbn zeta.
    destruct (new_GoogleGenAI ext apiKey w) as [[handle|e] w1]; cbn; [|done].
    intros [= <-]. cbn. split.
    + by apply resolve_by_priority_nonempty.
    + intros Hm. unfold resolve_by_priority. split.
      * intros v -> Hv. destruct Hm as [->| ->]; by destruct v.
      * intros He. by destruct Hm as [->| ->], He as [->| ->].
Qed.
End ConstructionClaims.

(** ** The orchestrator *)

Lemma text_settles_nonempty c t : text_settles c = inr t → t ≠ "".
Proof.
  destruct c as [result|e]; [|done]. cbn.
  destruct (given _) as [t'|] eqn:Hg; [|done].
  intros [= <-]. by apply given_nonempty in Hg as [_ ?].
Qed.

Lemma includes_unfold s sub :
  includes s sub
  = String.prefix sub s
    || match s with EmptyString => false | String _ s' => includes s' sub end.
Proof. by destruct s. Qed.

Lemma prefix_app sub post : String.prefix sub (sub +:+ post) = true.
Proof.
  induction sub as [|a sub IH]; [by destruct post|].
  change (String a sub +:+ post) with (String a (sub +:+ post)).
  change (String.prefix (String a sub) (String a (sub +:+ post)))
    with (if Ascii.ascii_dec a a then String.prefix sub (sub +:+ post) else false).
  by destruct (Ascii.ascii_dec a a).
Qed.

Lemma includes_here sub post : includes (sub +:+ post) sub = true.
Proof. by rewrite includes_unfold, prefix_app. Qed.

Lemma includes_app_r pre s sub :
  includes s sub = true → includes (pre +:+ s) sub = true.
Proof.
  intros Hs. induction pre as [|a pre IH]; [done|].
  change (String a pre +:+ s) with (String a (pre +:+ s)).
  rewrite includes_unfold, IH. apply orb_true_r.
Qed.


(** Symbolic execution of [generateNpcDialogue]: follow the code, and split
    on the answer of the outside world wherever the code awaits one. *)
Ltac js_simpl :=
  cbn -[AIManager.prompt pretty text_settles speech_settles String.append
        GeminiService.generateText ElevenLabsTTSService.generateSpeech
        GeminiService.request ElevenLabsTTSService.request].

Ltac js_unfold :=
  unfold AIManager.generateNpcDialogue, AIManager.generateNpcDialogue_try,
    AIManager.generateNpcDialogue_catch, Js.try_catch, Js.bind, Js.observed,
    Js.perform, console_log, console_error, Js.emit, Js.throw.

Ltac js_step :=
  first
  [ rewrite generateText_run
  | rewrite generateSpeech_run
  | match goal with
    | |- context [match ?x with (_, _) => _ end] =>
        lazymatch x with
        | (_, _) => fail
        | _ => destruct x as [[?|?] ?]
        end
    | |- context [match text_settles ?c with _ => _ end] =>
        let Hs := fresh "Hs" in
        destruct (text_settles c) as [[? ?]|[|? ?]] eqn:Hs;
        [ | by apply text_settles_nonempty in Hs | ]
    | |- context [match speech_settles ?c with _ => _ end] =>
        let Hs := fresh "Hs" in
        destruct (speech_settles c) as [?|?] eqn:Hs
    end ]; js_simpl.

Ltac js_run := cbn zeta; js_unfold; js_simpl; repeat js_step.

(** Read membership in a concrete trace as an equation on one event. *)
Ltac trace_inv H :=
  repeat (apply elem_of_cons in H as [H|H]; [first [discriminate H | simplify_eq] |]);
  try (apply elem_of_nil in H; destruct H).

(** Unfold the trace of a path into a list of events. *)
Ltac path_simpl :=
  unfold prompted_events, text_events, speech_events;
  cbn -[AIManager.prompt pretty String.append
        GeminiService.request ElevenLabsTTSService.request].

Section Orchestrator.
Context {W : Type} (ext : Externals W).

(** Every run of the [try] block follows one of the paths. *)
Lemma attempt_paths (this : AIManager.t W) entityId (w : W) :
  attempt_path this entityId (AIManager.generateNpcDialogue_try ext this entityId w).
Proof.
  js_run.
  all: repeat match goal with u : unit |- _ => destruct u end.
  all: try by econstructor.
  all: match goal with
       | |- attempt_path _ _
              (mkRun ?r ?w
                 (GetEntityState _ (Normal ?n) :: GetPlayerState (Normal ?p)
                  :: GetGameState (Normal ?g) :: _)) =>
           match goal with
           | Ht : text_settles ?c = inl (?msg, ?d) |- _ =>
               exact (no_text _ _ n p g c msg d w Ht)
           | Ht : text_settles ?c = inr ?t, Hp : speech_settles ?c' = inl ?e |- _ =>
               exact (no_audio _ _ n p g c t c' e w Ht Hp)
           | Ht : text_settles ?c = inr ?t, Hp : speech_settles ?c' = inr ?b |- _ =>
               exact (played _ _ n p g c t c' b w Ht Hp)
           | Ht : text_settles ?c = inr ?t, Hp : speech_settles ?c' = inr ?b |- _ =>
               match r with
               | Throw ?e => exact (not_played _ _ n p g c t c' b e w Ht Hp)
               end
           | Ht : text_settles ?c = inr ?t |- _ =>
               match r with
               | Throw ?e => exact (no_display _ _ n p g c t e w Ht)
               end
           end
       end.
Qed.

(** [generateNpcDialogue] in terms of its [try] block: a run that ends
    normally stands, one that throws is logged and answered with the
    fallback display, whose completion becomes that of the call. *)
Lemma generateNpcDialogue_run (this : AIManager.t W) entityId (w : W) :
  AIManager.generateNpcDialogue ext this entityId w =
  let start := ConsoleLog ("Generating dialogue for entity: " +:+ entityId) in
  let attempt := AIManager.generateNpcDialogue_try ext this entityId w in
  match completion attempt with
  | Normal _ => mkRun (Normal tt) (world attempt) (start :: events attempt)
  | Throw error =>
      let '(shown, w') :=
        showDialogue (AIManager.adapter this) "..." entityId (world attempt) in
      mkRun shown w'
        (start :: events attempt
         ++ [ConsoleError
               ("[AIManager] Error generating dialogue for " +:+ entityId +:+ ":")
               (DetailError error);
             ShowDialogue "..." entityId shown])
  end.
Proof.
  unfold AIManager.generateNpcDialogue, AIManager.generateNpcDialogue_catch,
    Js.try_catch, Js.bind, Js.perform, console_log, console_error, Js.emit.
  cbn zeta.
  destruct (AIManager.generateNpcDialogue_try ext this entityId w)
    as [[[]|error] w' tr]; [done|].
  cbn -[String.append].
  by destruct (showDialogue _ _ _ w') as [shown w''].
Qed.
End Orchestrator.

(** Split a goal about a run of [generateNpcDialogue] into its paths. *)
Ltac by_paths ext this entityId w :=
  cbn zeta; rewrite !generateNpcDialogue_run; cbn zeta;
  destruct (attempt_paths ext this entityId w);
  cbn [completion world events];
  try destruct (showDialogue _ _ _ _) as [? ?];
  path_simpl.

Section OrchestratorClaims.
Context {W : Type} (ext : Externals W).

(** C2. If the context fetches succeed and [generateText] resolves to
    [null] (the call is reached only after the three fetches resolved),
    the adapter is told exactly one thing, [showDialogue("...", {entityId})]:
    [playAudio] is not called, [generateSpeech] is not called and no
    request goes to the speech provider. *)
Theorem null_text_shows_fallback (this : AIManager.t W) entityId (w : W) prompt :
  let r := AIManager.generateNpcDialogue ext this entityId w in
  GenerateText prompt (Normal None) ∈ events r →
  (∃ npcState playerState gameState,
      GetEntityState entityId (Normal npcState) ∈ events r
      ∧ GetPlayerState (Normal playerState) ∈ events r
      ∧ GetGameState (Normal gameState) ∈ events r
      ∧ prompt = AIManager.prompt npcState playerState gameState)
  ∧ instructions (events r) = [Show "..." entityId]
  ∧ spoken (events r) = []
  ∧ fetches (events r) = [].
Proof.
  by_paths ext this entityId w; intros Hnull; trace_inv Hnull.
  all: split; [|done].
  all: eexists _, _, _; split_and!; [| | |done]; set_solver.
Qed.



(** C1 (amended). Whatever the [try] block of [generateNpcDialogue] throws
    is caught: the handler logs a diagnostic that includes the entity id,
    carrying the error, and calls [showDialogue("...", {entityId})]; the
    call of [generateNpcDialogue] then completes the way that fallback
    display completes.  A failing state fetch, a rejected [playAudio] and a
    [null] text each make the [try] block throw.  So an exception reaches
    the caller only when the fallback [showDialogue] itself throws it. *)
Theorem exceptions_end_in_fallback (this : AIManager.t W) entityId (w : W) :
  let attempt := AIManager.generateNpcDialogue_try ext this entityId w in
  let r := AIManager.generateNpcDialogue ext this entityId w in
  let diagnostic := "[AIManager] Error generating dialogue for " +:+ entityId +:+ ":" in
  (∀ error, completion attempt = Throw error →
     ∃ shown,
       events r
       = ConsoleLog ("Generating dialogue for entity: " +:+ entityId)
         :: events attempt
         ++ [ConsoleError diagnostic (DetailError error);
             ShowDialogue "..." entityId shown]
       ∧ completion r = shown)
  ∧ includes diagnostic entityId = true
  ∧ (∀ error,
       GetEntityState entityId (Throw error) ∈ events r
       ∨ GetPlayerState (Throw error) ∈ events r
       ∨ GetGameState (Throw error) ∈ events r
       ∨ (∃ audioData, PlayAudio audioData entityId (Throw error) ∈ events r) →
       completion attempt = Throw error)
  ∧ (∀ prompt, GenerateText prompt (Normal None) ∈ events r →
       completion attempt = Throw (mkError "Failed to generate dialogue text."))
  ∧ (∀ error, completion r = Throw error →
       last (events r) = Some (ShowDialogue "..." entityId (Throw error))).
Proof.
  by_paths ext this entityId w.
  all: split_and!; [| apply includes_app_r, includes_here | | |].
  all: try (intros error [= <-]; by eexists).
  all: try done.
  all: try (intros error [Hin|[Hin|[Hin|[audioData Hin]]]]; by trace_inv Hin).
  all: try (intros prompt Hin; by trace_inv Hin).
  all: try (by intros error [= <-]).
Qed.
End OrchestratorClaims.

(** ** The scenarios of the test suite *)

(** Find an event in the trace of a concrete run. *)
Ltac find_event :=
  vm_compute; repeat first [apply list_elem_of_here | apply list_elem_of_further].

(** 'should generate NPC dialogue, show text, and play audio' *)
Example run_success :
  completion (Mocks.dialogue Mocks.both_succeed Mocks.MockGameAdapter) = Normal tt
  ∧ instructions (events (Mocks.dialogue Mocks.both_succeed Mocks.MockGameAdapter))
    = [Show "Greetings, traveler." "npc-1"; Play Mocks.audioData "npc-1"]
  ∧ spoken (events (Mocks.dialogue Mocks.both_succeed Mocks.MockGameAdapter))
    = ["Greetings, traveler."]
  ∧ prompted (events (Mocks.dialogue Mocks.both_succeed Mocks.MockGameAdapter))
    = [Mocks.old_man_prompt].
Proof. by vm_compute. Qed.

(** 'should show fallback dialogue if LLM fails' *)
Example run_llm_fails :
  completion (Mocks.dialogue Mocks.offline Mocks.MockGameAdapter) = Normal tt
  ∧ instructions (events (Mocks.dialogue Mocks.offline Mocks.MockGameAdapter))
    = [Show "..." "npc-1"]
  ∧ spoken (events (Mocks.dialogue Mocks.offline Mocks.MockGameAdapter)) = [].
Proof. by vm_compute. Qed.

(** 'should still show dialogue even if TTS fails' *)
Example run_tts_fails :
  completion (Mocks.dialogue Mocks.speech_refused Mocks.MockGameAdapter) = Normal tt
  ∧ instructions (events (Mocks.dialogue Mocks.speech_refused Mocks.MockGameAdapter))
    = [Show "My voice is gone, but my words remain." "npc-1"]
  ∧ diagnostics (events (Mocks.dialogue Mocks.speech_refused Mocks.MockGameAdapter))
    = [("Error calling ElevenLabs TTS API:",
        DetailError (mkError "HTTP error! status: 401, body: Unauthorized"));
       ("Failed to generate audio.", NoDetail)].
Proof. by vm_compute. Qed.

(** The host does not know the entity and its dialogue box throws: the
    fallback display throws in turn, and the exception reaches the caller. *)
Example run_broken_dialogue_box :
  completion (Mocks.dialogue Mocks.both_succeed Mocks.BrokenAdapter)
  = Throw (mkError "dialogue box is gone")
  ∧ instructions (events (Mocks.dialogue Mocks.both_succeed Mocks.BrokenAdapter))
    = [Show "..." "npc-1"].
Proof. by vm_compute. Qed.

(** C1, where the claim as stated fails: with a host that does not know the
    entity and whose dialogue box throws, the exception of the state fetch
    is caught and logged, but the call does not return normally. *)
Lemma broken_dialogue_box_escapes :
  ¬ caught_and_never_escapes Mocks.both_succeed (Mocks.aiManager Mocks.BrokenAdapter).
Proof.
  intros H.
  destruct (H "npc-1" tt (mkError "no such entity") eq_refl) as (_ & _ & Hret).
  vm_compute in Hret. discriminate Hret.
Qed.

(** The host does not know the entity, its dialogue box works. *)
Lemma exceptions_end_in_fallback_witness :
  ∃ shown,
    events (Mocks.dialogue Mocks.both_succeed Mocks.LostEntityAdapter)
    = ConsoleLog "Generating dialogue for entity: npc-1"
      :: events (AIManager.generateNpcDialogue_try Mocks.both_succeed
                   (Mocks.aiManager Mocks.LostEntityAdapter) "npc-1" tt)
      ++ [ConsoleError "[AIManager] Error generating dialogue for npc-1:"
            (DetailError (mkError "no such entity"));
          ShowDialogue "..." "npc-1" shown]
    ∧ completion (Mocks.dialogue Mocks.both_succeed Mocks.LostEntityAdapter) = shown.
Proof.
  apply (proj1 (exceptions_end_in_fallback Mocks.both_succeed
                  (Mocks.aiManager Mocks.LostEntityAdapter) "npc-1" tt)
           (mkError "no such entity")).
  reflexivity.
Defined.

Lemma null_text_shows_fallback_witness :
  instructions (events (Mocks.dialogue Mocks.text_filtered Mocks.MockGameAdapter))
  = [Show "..." "npc-1"]
  ∧ spoken (events (Mocks.dialogue Mocks.text_filtered Mocks.MockGameAdapter)) = []
  ∧ fetches (events (Mocks.dialogue Mocks.text_filtered Mocks.MockGameAdapter)) = [].
Proof.
  refine (proj2 (null_text_shows_fallback Mocks.text_filtered
                   (Mocks.aiManager Mocks.MockGameAdapter) "npc-1" tt
                   Mocks.old_man_prompt _)).
  find_event.
Defined.



(** 'should generate text successfully' *)
Lemma generateText_text_or_null_witness :
  completion (GeminiService.generateText Mocks.both_succeed Mocks.llm "test prompt" tt)
  = Normal (Some "Greetings, traveler.").
Proof.
  apply (proj1 (generateText_text_or_null Mocks.both_succeed Mocks.llm
                  "test prompt" tt) "Greetings, traveler.").
  exists (Mocks.reply "Greetings, traveler."). split; [reflexivity|].
  by eexists _, _, _, _, _.
Defined.

(** 'should generate speech successfully' *)
Lemma generateSpeech_one_post_witness :
  ∃ init,
    fetches (events (ElevenLabsTTSService.generateSpeech Mocks.both_succeed
                       Mocks.tts "Hello" tt))
    = [("https://api.elevenlabs.io/v1/text-to-speech/21m00Tcm4TlvDq8ikWAM", init)]
    ∧ method init = "POST"
    ∧ headers init !! "xi-api-key" = Some "fake-elevenlabs-key"
    ∧ completion (ElevenLabsTTSService.generateSpeech Mocks.both_succeed
                    Mocks.tts "Hello" tt)
      = Normal (Some Mocks.audioData).
Proof.
  destruct (generateSpeech_one_post Mocks.both_succeed (Some "fake-elevenlabs-key")
              None tt Mocks.tts "Hello" tt eq_refl)
    as (init & Hfetch & Hmethod & Hkey & _ & Haudio & _).
  exists init. split; [exact Hfetch|]. split; [exact Hmethod|].
  split; [exact Hkey|].
  apply Haudio. exists (Mocks.audio_response Mocks.audioData).
  injection Hfetch as <-. split; [reflexivity|]. split; [|reflexivity].
  split; discriminate.
Defined.

(** 'should use the model ID from constructor argument, prioritizing it over
    environment variable' *)
Lemma model_resolved_at_construction_witness :
  json_field "model_id"
    <$> (body ∘ snd <$> fetches
           (events (ElevenLabsTTSService.generateSpeech Mocks.with_env_model
                      {| ElevenLabsTTSService.apiKey := "test-elevenlabs-key";
                         ElevenLabsTTSService.voiceId := "21m00Tcm4TlvDq8ikWAM";
                         ElevenLabsTTSService.modelId := "constructor-model" |}
                      "Hello" tt)))
  = [Some (JString "constructor-model")].
Proof.
  exact (proj2 (proj1 (model_resolved_at_construction Mocks.with_env_model)
                  (Some "test-elevenlabs-key") (Some "constructor-model") tt _
                  eq_refl) "Hello" tt).
Defined.

(** 'should throw an error if API key is not provided', and a key that is. *)
Lemma tts_new_throws_iff_no_key_witness :
  (∃ e, completion (ElevenLabsTTSService.new Mocks.offline (Some "") None tt) = Throw e)
  ∧ ∃ this,
      completion (ElevenLabsTTSService.new Mocks.offline
                    (Some "test-elevenlabs-key") None tt) = Normal this
      ∧ ElevenLabsTTSService.apiKey this = "test-elevenlabs-key".
Proof.
  split.
  - apply (proj2 (proj1 (tts_new_throws_iff_no_key Mocks.offline (Some "") None tt))).
    right. reflexivity.
  - apply (proj1 (proj2 (proj2 (tts_new_throws_iff_no_key Mocks.offline
                                  (Some "test-elevenlabs-key") None tt)))
             "test-elevenlabs-key"); [reflexivity|discriminate].
Defined.

(** C9, where the claim as stated fails: against the SDK as the test suite
    mocks it, the text client is built from an empty key. *)
Lemma gemini_accepts_empty_key : ¬ gemini_key_is_required Mocks.offline.
Proof.
  intros H. destruct (H (Some "") None tt eq_refl) as [e He].
  vm_compute in He. discriminate He.
Qed.

Lemma gemini_new_forwards_key_witness :
  ∃ this,
    completion (GeminiService.new Mocks.offline (Some "") None tt) = Normal this
    ∧ GeminiService.genAI this = {| genai_apiKey := Some "" |}.
Proof.
  apply (proj2 (proj2 (gemini_new_forwards_key Mocks.offline (Some "") None tt))).
  reflexivity.
Defined.

(** [new ElevenLabsTTSService(apiKey, '')] with
    [process.env.ELEVENLABS_MODEL_ID = 'env-var-model'], and with
    [process.env.ELEVENLABS_MODEL_ID = '']. *)
Lemma empty_model_override_is_absent_witness :
  (∃ this,
     completion (ElevenLabsTTSService.new Mocks.with_env_model
                   (Some "test-elevenlabs-key") (Some "") tt) = Normal this
     ∧ ElevenLabsTTSService.modelId this = "env-var-model")
  ∧ (∃ this,
       completion (ElevenLabsTTSService.new Mocks.with_empty_env_model
                     (Some "test-elevenlabs-key") (Some "") tt) = Normal this
       ∧ ElevenLabsTTSService.modelId this = "eleven_multilingual_v2").
Proof.
  split; eexists; (split; [reflexivity|]).
  - apply (proj1 (proj2 (proj1 (proj2 (proj2 (empty_model_override_is_absent
             Mocks.with_env_model (Some "test-elevenlabs-key") tt)))
             (Some "") _ eq_refl) (or_introl eq_refl)) "env-var-model");
      [reflexivity|discriminate].
  - apply (proj2 (proj2 (proj1 (proj2 (proj2 (empty_model_override_is_absent
             Mocks.with_empty_env_model (Some "test-elevenlabs-key") tt)))
             (Some "") _ eq_refl) (or_introl eq_refl))).
    left. reflexivity.
Defined.

(** * More of the code *)

(** ** The orchestrator, path by path *)

Lemma text_settles_carries c t :
  text_settles c = inr t ↔ ∃ result, c = Normal result ∧ carries_text result t.
Proof.
  split.
  - destruct c as [result|e]; [|done]. cbn.
    destruct (given _) as [t'|] eqn:Hg; [|done]. intros [= <-].
    exists result. split; [done|]. by apply carries_text_first_text.
  - intros (result & -> & Hc%carries_text_first_text). cbn. by rewrite Hc.
Qed.

(** Point at an event of a trace that is written out. *)
Ltac in_trace :=
  solve [repeat first [apply list_elem_of_here | apply list_elem_of_further]].

Section OrchestratorPaths.
Context {W : Type} (ext : Externals W).

(** The first thing asked of the adapter is the state of the entity. *)
Lemma queries_start_with_the_entity (this : AIManager.t W) entityId (w : W) :
  ∃ rest,
    queries (events (AIManager.generateNpcDialogue ext this entityId w))
    = QueryEntity entityId :: rest.
Proof. by_paths ext this entityId w; by eexists. Qed.

(** X1. [generateNpcDialogue] returns normally whenever the adapter's
    [showDialogue] returns normally for the fallback text: with such an
    adapter no failure of a state fetch, of a provider or of the playback
    reaches the caller. *)
Theorem dialogue_returns_when_fallback_shows (this : AIManager.t W) entityId (w : W) :
  (∀ w', (showDialogue (AIManager.adapter this) "..." entityId w').1 = Normal tt) →
  completion (AIManager.generateNpcDialogue ext this entityId w) = Normal tt.
Proof.
  intros Hshow. rewrite generateNpcDialogue_run. cbn zeta.
  destruct (completion (AIManager.generateNpcDialogue_try ext this entityId w))
    as [[]|error]; [done|].
  specialize (Hshow (world (AIManager.generateNpcDialogue_try ext this entityId w))).
  by destruct (showDialogue _ _ _ _) as [shown w'].
Qed.

(** X2. Whatever happens, the adapter is told one of five things: the
    fallback alone; a text, then the fallback (the display threw); a text
    alone (no audio); a text, then its audio; a text, its audio, then the
    fallback (the playback was rejected).  The text is never empty, and
    every instruction is for the entity of the call. *)
Theorem adapter_is_told_one_of_five (this : AIManager.t W) entityId (w : W) :
  let told := instructions (events (AIManager.generateNpcDialogue ext this entityId w)) in
  told = [Show "..." entityId]
  ∨ ∃ t, t ≠ ""
      ∧ (told = [Show t entityId; Show "..." entityId]
         ∨ told = [Show t entityId]
         ∨ ∃ b, told = [Show t entityId; Play b entityId]
                ∨ told = [Show t entityId; Play b entityId; Show "..." entityId]).
Proof.
  by_paths ext this entityId w.
  all: try (by left).
  all: right; exists t; (split; [by eapply text_settles_nonempty|]).
  - by left.
  - by right; left.
  - right; right. exists b. by left.
  - right; right. exists b. by right.
Qed.

(** X3. The state is asked for in the order entity, player, world, each
    query once and only after the one before it resolved; the entity query
    names the entity of the call.  The text provider is contacted only
    after all three resolved, once, with the prompt built from the three
    records that came back. *)
Theorem state_is_fetched_in_order (this : AIManager.t W) entityId (w : W) :
  let tr := events (AIManager.generateNpcDialogue ext this entityId w) in
  (queries tr = [QueryEntity entityId]
   ∨ queries tr = [QueryEntity entityId; QueryPlayer]
   ∨ queries tr = [QueryEntity entityId; QueryPlayer; QueryGame])
  ∧ (∀ e, GetEntityState entityId (Throw e) ∈ tr →
       queries tr = [QueryEntity entityId] ∧ generations tr = [])
  ∧ (∀ e, GetPlayerState (Throw e) ∈ tr →
       queries tr = [QueryEntity entityId; QueryPlayer] ∧ generations tr = [])
  ∧ (∀ e, GetGameState (Throw e) ∈ tr → generations tr = [])
  ∧ (∀ params, params ∈ generations tr →
       ∃ npcState playerState gameState,
         GetEntityState entityId (Normal npcState) ∈ tr
         ∧ GetPlayerState (Normal playerState) ∈ tr
         ∧ GetGameState (Normal gameState) ∈ tr
         ∧ generations tr
           = [GeminiService.request (AIManager.llmService this)
                (AIManager.prompt npcState playerState gameState)]).
Proof.
  by_paths ext this entityId w.
  all: split_and!; [auto| | | |].
  all: try (intros e Hin; by trace_inv Hin).
  all: try (intros params Hin; by trace_inv Hin).
  all: intros params _; eexists _, _, _; split_and!; [| | |done]; in_trace.
Qed.

(** X4. A request goes to the speech provider only for a text that the
    text provider produced and that the adapter has displayed without
    throwing, and only after that display; the request carries exactly
    that text, and there is at most one such request in a call. *)
Theorem speech_is_requested_for_the_displayed_text (this : AIManager.t W) entityId
    (w : W) url init :
  let tr := events (AIManager.generateNpcDialogue ext this entityId w) in
  (url, init) ∈ fetches tr →
  ∃ params result t,
    GenerateContent params (Normal result) ∈ tr
    ∧ carries_text result t
    ∧ json_field "text" (body init) = Some (JString t)
    ∧ spoken tr = [t]
    ∧ fetches tr = [(url, init)]
    ∧ ∃ before between after answer,
        tr = before ++ [ShowDialogue t entityId (Normal tt)] ++ between
             ++ [Fetch url init answer] ++ after.
Proof.
  by_paths ext this entityId w; intros Hin; trace_inv Hin.
  all: match goal with
       | Ht : text_settles _ = inr _ |- _ =>
           apply text_settles_carries in Ht as (result & -> & Ht)
       end.
  all: eexists _, result, t; split_and!; [in_trace | done | done | done | done |].
  all: by eexists [_; _; _; _; _; _; _], [_], _, _.
Qed.

(** X5. When the display of the generated text throws, nothing is sent to
    the speech provider and nothing is played: the error is logged by the
    handler and the fallback display is attempted. *)
Theorem failed_display_skips_speech (this : AIManager.t W) entityId (w : W) t e :
  let r := AIManager.generateNpcDialogue ext this entityId w in
  ShowDialogue t entityId (Throw e)
    ∈ events (AIManager.generateNpcDialogue_try ext this entityId w) →
  fetches (events r) = []
  ∧ spoken (events r) = []
  ∧ instructions (events r) = [Show t entityId; Show "..." entityId]
  ∧ ConsoleError ("[AIManager] Error generating dialogue for " +:+ entityId +:+ ":")
      (DetailError e) ∈ events r.
Proof.
  by_paths ext this entityId w; intros Hin; trace_inv Hin.
  split_and!; [done|done|done|]. in_trace.
Qed.

(** X6. When [playAudio] rejects, the generated text has already been
    displayed; the rejection is logged by the handler and the fallback
    display follows, so the adapter is told the text, the audio and then
    "...".  The call completes the way that last display completes. *)
Theorem rejected_playback_ends_in_fallback (this : AIManager.t W) entityId (w : W) b e :
  let r := AIManager.generateNpcDialogue ext this entityId w in
  PlayAudio b entityId (Throw e) ∈ events r →
  ∃ t,
    instructions (events r) = [Show t entityId; Play b entityId; Show "..." entityId]
    ∧ ShowDialogue t entityId (Normal tt) ∈ events r
    ∧ ConsoleError ("[AIManager] Error generating dialogue for " +:+ entityId +:+ ":")
        (DetailError e) ∈ events r
    ∧ last (events r) = Some (ShowDialogue "..." entityId (completion r)).
Proof.
  by_paths ext this entityId w; intros Hin; trace_inv Hin.
  exists t. split_and!; [done| | |done]; in_trace.
Qed.
End OrchestratorPaths.

(** ** The prompt *)

Lemma append_assoc (a b c : string) : (a +:+ b) +:+ c = a +:+ b +:+ c.
Proof.
  induction a as [|x a IH]; [done|].
  change (String x (a +:+ b) +:+ c = String x (a +:+ b +:+ c)).
  change (String x ((a +:+ b) +:+ c) = String x (a +:+ b +:+ c)). by rewrite IH.
Qed.

Lemma includes_sentence (a x b rest : string) :
  includes (a +:+ x +:+ b +:+ rest) (a +:+ x +:+ b) = true.
Proof.
  replace (a +:+ x +:+ b +:+ rest) with ((a +:+ x +:+ b) +:+ rest)
    by (by rewrite !append_assoc).
  apply includes_here.
Qed.

Lemma includes_sentence2 (a x b y c rest : string) :
  includes (a +:+ x +:+ b +:+ y +:+ c +:+ rest) (a +:+ x +:+ b +:+ y +:+ c) = true.
Proof.
  replace (a +:+ x +:+ b +:+ y +:+ c +:+ rest) with ((a +:+ x +:+ b +:+ y +:+ c) +:+ rest)
    by (by rewrite !append_assoc).
  apply includes_here.
Qed.

Lemma endsWith_refl s : endsWith s s = true.
Proof. destruct s; cbn; by rewrite bool_decide_eq_true_2. Qed.

Lemma endsWith_app_r pre s suffix :
  endsWith s suffix = true → endsWith (pre +:+ s) suffix = true.
Proof.
  intros Hs. induction pre as [|a pre IH]; [done|].
  change (String a pre +:+ s) with (String a (pre +:+ s)).
  cbn [endsWith]. rewrite IH. apply orb_true_r.
Qed.

(** X7. The prompt states the personality of the entity; when the entity
    has none, or an empty one, it states "a mysterious stranger" instead. *)
Theorem prompt_states_personality npcState playerState gameState :
  (∀ p, personality npcState = Some p → p ≠ "" →
     includes (AIManager.prompt npcState playerState gameState)
       ("Your personality is: " +:+ p +:+ ".") = true)
  ∧ (personality npcState = None ∨ personality npcState = Some "" →
     includes (AIManager.prompt npcState playerState gameState)
       "Your personality is: a mysterious stranger." = true).
Proof.
  unfold AIManager.prompt. split.
  - intros p -> Hp. destruct p as [|c p]; [done|]. cbn [js_or_literal].
    do 7 apply includes_app_r. apply includes_sentence.
  - intros [-> | ->]; cbn [js_or_literal];
      do 7 apply includes_app_r;
      apply (includes_sentence "Your personality is: " "a mysterious stranger" ".").
Qed.

(** X8. Whatever records the adapter returned, the prompt tells the model
    who it is, whom it talks to, the player's level the way JavaScript
    prints that number, and where and when the scene takes place, and it
    ends with the fixed instruction. *)
Theorem prompt_carries_the_context npcState playerState gameState :
  let prompt := AIManager.prompt npcState playerState gameState in
  includes prompt
    ("You are " +:+ entity_name npcState +:+ ", a character in a fantasy RPG.") = true
  ∧ includes prompt
      ("You are talking to a player named " +:+ player_name playerState +:+ ".") = true
  ∧ includes prompt
      ("The player's level is " +:+ Number_toString (level playerState) +:+ ".")
    = true
  ∧ includes prompt
      ("Current situation: You are at " +:+ location gameState +:+ ", and it is "
       +:+ timeOfDay gameState +:+ ".") = true
  ∧ endsWith prompt
      "Based on this, generate a single, short, engaging line of dialogue for the player. Be creative."
    = true.
Proof.
  cbn zeta. unfold AIManager.prompt. split_and!.
  - do 2 apply includes_app_r. apply includes_sentence.
  - do 12 apply includes_app_r. apply includes_sentence.
  - do 17 apply includes_app_r. apply includes_sentence.
  - do 22 apply includes_app_r. apply includes_sentence2.
  - do 31 apply endsWith_app_r. apply endsWith_refl.
Qed.

(** ** Building the manager *)

Section Manager.
Context {W : Type} (ext : Externals W).

(** [new AIManager(adapter, options)] in closed form. *)
Lemma manager_new_run (adapter : GameAdapter W) options (w : W) :
  AIManager.new ext adapter options w =
  let '(sdk, w') := new_GoogleGenAI ext (AIManager.geminiApiKey options) w in
  let built := NewGoogleGenAI (AIManager.geminiApiKey options) sdk in
  match sdk with
  | Throw e => mkRun (Throw e) w' [built]
  | Normal handle =>
      match given (AIManager.elevenLabsApiKey options) with
      | None => mkRun (Throw (mkError "ElevenLabs API key is required.")) w' [built]
      | Some key =>
          mkRun
            (Normal {|
               AIManager.adapter := adapter;
               AIManager.llmService := {|
                 GeminiService.genAI := handle;
                 GeminiService.modelName :=
                   resolve_by_priority (AIManager.geminiModelName options)
                     (process_env ext w' !! "GEMINI_MODEL_NAME") "gemini-1.5-flash" |};
               AIManager.ttsService := {|
                 ElevenLabsTTSService.apiKey := key;
                 ElevenLabsTTSService.voiceId := "21m00Tcm4TlvDq8ikWAM";
                 ElevenLabsTTSService.modelId :=
                   resolve_by_priority (AIManager.elevenLabsModelId options)
                     (process_env ext w' !! "ELEVENLABS_MODEL_ID")
                     "eleven_multilingual_v2" |} |})
            w' [built; ConsoleLog "AIManager initialized."]
      end
  end.
Proof.
  unfold AIManager.new, Js.bind. rewrite gemini_new_run. cbn zeta.
  destruct (new_GoogleGenAI ext _ w) as [[handle|e] w']; cbn [fst snd]; [|done].
  rewrite tts_new_run.
  by destruct (given (AIManager.elevenLabsApiKey options)) as [key|].
Qed.

(** X9. Building the manager asks the SDK for a handle first, with the
    Gemini key as it was given.  It throws exactly when the SDK constructor
    throws, or else when the ElevenLabs key is absent or empty (by then the
    handle has been built); the Gemini key itself is never checked.
    "AIManager initialized." is logged exactly when construction succeeds. *)
Theorem manager_construction_fails_on_a_missing_key (adapter : GameAdapter W)
    options (w : W) :
  let r := AIManager.new ext adapter options w in
  let sdk := (new_GoogleGenAI ext (AIManager.geminiApiKey options) w).1 in
  handles (events r) = [AIManager.geminiApiKey options]
  ∧ (∀ e, completion r = Throw e
          ↔ sdk = Throw e
            ∨ ((∃ handle, sdk = Normal handle)
               ∧ given (AIManager.elevenLabsApiKey options) = None
               ∧ e = mkError "ElevenLabs API key is required."))
  ∧ ((∃ this, completion r = Normal this)
     ↔ logged (events r) = ["AIManager initialized."]).
Proof.
  cbn zeta. rewrite manager_new_run.
  destruct (new_GoogleGenAI ext _ w) as [[handle|e] w']; cbn [fst snd].
  - destruct (given (AIManager.elevenLabsApiKey options)) as [key|] eqn:Hkey.
    + split_and!; [done| |].
      * intros e. split; [done|]. by intros [?|(_ & ? & _)].
      * split; [done|]. intros _. by eexists.
    + split_and!; [done| |].
      * intros e. split.
        -- intros [= <-]. right. split_and!; [by eexists|done|done].
        -- intros [?|(_ & _ & ->)]; done.
      * split; [by intros [? ?]|done].
  - split_and!; [done| |].
    + intros e'. split.
      * intros [= <-]. by left.
      * intros [[= <-]|([? ?] & _)]; done.
    + split; [by intros [? ?]|done].
Qed.

(** X10. What the options say is what the providers get: in every call of
    a manager built from [options], the request to the text provider names
    the model resolved from [options.geminiModelName] and runs on the handle
    the SDK built, and the request to the speech provider goes to the fixed
    voice URL with [options.elevenLabsApiKey] as [xi-api-key] and the model
    resolved from [options.elevenLabsModelId]. *)
Theorem options_reach_the_providers (adapter : GameAdapter W) options (w0 : W)
    this entityId (w : W) :
  let built := AIManager.new ext adapter options w0 in
  let env := process_env ext (world built) in
  let tr := events (AIManager.generateNpcDialogue ext this entityId w) in
  completion built = Normal this →
  (∀ params, params ∈ generations tr →
     model params
     = resolve_by_priority (AIManager.geminiModelName options)
         (env !! "GEMINI_MODEL_NAME") "gemini-1.5-flash")
  ∧ (∀ url init, (url, init) ∈ fetches tr →
       url = "https://api.elevenlabs.io/v1/text-to-speech/21m00Tcm4TlvDq8ikWAM"
       ∧ method init = "POST"
       ∧ headers init !! "xi-api-key" = AIManager.elevenLabsApiKey options
       ∧ json_field "model_id" (body init)
         = Some (JString
                   (resolve_by_priority (AIManager.elevenLabsModelId options)
                      (env !! "ELEVENLABS_MODEL_ID") "eleven_multilingual_v2"))).
Proof.
  cbn zeta. rewrite manager_new_run.
  destruct (new_GoogleGenAI ext _ w0) as [[handle|e] w']; cbn [fst snd]; [|done].
  destruct (given (AIManager.elevenLabsApiKey options)) as [key|] eqn:Hkey; [|done].
  apply given_nonempty in Hkey as [Hkey _]. cbn [completion world].
  intros [= <-]. revert Hkey. generalize (AIManager.elevenLabsApiKey options).
  intros k ->.
  by_paths ext
    {| AIManager.adapter := adapter;
       AIManager.llmService := {|
         GeminiService.genAI := handle;
         GeminiService.modelName :=
           resolve_by_priority (AIManager.geminiModelName options)
             (process_env ext w' !! "GEMINI_MODEL_NAME") "gemini-1.5-flash" |};
       AIManager.ttsService := {|
         ElevenLabsTTSService.apiKey := key;
         ElevenLabsTTSService.voiceId := "21m00Tcm4TlvDq8ikWAM";
         ElevenLabsTTSService.modelId :=
           resolve_by_priority (AIManager.elevenLabsModelId options)
             (process_env ext w' !! "ELEVENLABS_MODEL_ID")
             "eleven_multilingual_v2" |} |} entityId w.
  all: split; [intros params Hin|intros url init Hin]; by trace_inv Hin.
Qed.
End Manager.

(** ** The provider clients, once more *)

Section ClientsAgain.
Context {W : Type} (ext : Externals W).

(** X11. [generateText] asks the provider once, whether the answer is a
    text, an empty response or an exception: there is no second attempt.
    The request names the model of the instance and holds one message, of
    role "user", whose only part is the prompt as it was given; before it
    one line is logged that names the model, and the world is left as the
    provider left it. *)
Theorem generateText_asks_once this prompt (w : W) :
  let r := GeminiService.generateText ext this prompt w in
  let asked :=
    {| model := GeminiService.modelName this;
       contents := [ {| role := Some "user";
                        parts := Some [ {| text := Some prompt |} ] |} ] |} in
  generations (events r) = [asked]
  ∧ logged (events r)
    = ["Sending prompt to Gemini using model " +:+ GeminiService.modelName this +:+ "..."]
  ∧ world r = (models_generateContent ext (GeminiService.genAI this) asked w).2
  ∧ ((∃ t, completion r = Normal (Some t)) ↔ diagnostics (events r) = []).
Proof.
  cbn zeta. rewrite generateText_run. cbn zeta.
  change (GeminiService.request this prompt)
    with {| model := GeminiService.modelName this;
            contents := [ {| role := Some "user";
                             parts := Some [ {| text := Some prompt |} ] |} ] |}.
  destruct (models_generateContent ext _ _ w) as [c w'].
  cbn -[text_settles String.append].
  destruct (text_settles c) as [[msg detail]|t]; split_and!; try done.
  - split; [by intros [? ?]|done].
  - split; [done|]. intros _. by eexists.
Qed.

(** X12. What [generateSpeech] logs when it returns [null]: the error of
    the request when [fetch] rejects; on a status outside 200..299 an error
    whose message holds the status and the text of the response body, or,
    when that body cannot be read, the error of reading it (the status is
    then not reported); on a 2xx status whose body cannot be read, the
    error of reading it.  When audio is returned nothing is logged as an
    error. *)
Theorem generateSpeech_reports_the_failure this text (w : W) :
  let url := "https://api.elevenlabs.io/v1/text-to-speech/"
             +:+ ElevenLabsTTSService.voiceId this in
  let provider := (fetch ext url (ElevenLabsTTSService.request this text) w).1 in
  let r := ElevenLabsTTSService.generateSpeech ext this text w in
  let reported e := [("Error calling ElevenLabs TTS API:", DetailError e)] in
  (∀ e, provider = Throw e → diagnostics (events r) = reported e)
  ∧ (∀ response errorBody,
       provider = Normal response →
       ¬ (200 ≤ status response ≤ 299)%Z →
       response_text response = Normal errorBody →
       diagnostics (events r)
       = reported (mkError ("HTTP error! status: " +:+ pretty (status response)
                            +:+ ", body: " +:+ errorBody)))
  ∧ (∀ response e,
       provider = Normal response →
       ¬ (200 ≤ status response ≤ 299)%Z →
       response_text response = Throw e →
       diagnostics (events r) = reported e)
  ∧ (∀ response e,
       provider = Normal response →
       (200 ≤ status response ≤ 299)%Z →
       response_arrayBuffer response = Throw e →
       diagnostics (events r) = reported e)
  ∧ (∀ audio, completion r = Normal (Some audio) → diagnostics (events r) = []).
Proof.
  cbn zeta. rewrite generateSpeech_run. cbn zeta.
  destruct (fetch ext _ _ w) as [c w']. cbn -[speech_settles String.append pretty].
  assert (Hok : ∀ response, (200 ≤ status response ≤ 299)%Z ↔ ok response = true).
  { intros response. unfold ok.
    rewrite andb_true_iff, !bool_decide_eq_true. done. }
  split_and!.
  - by intros e ->.
  - intros response errorBody -> Hst Htxt. unfold speech_settles.
    destruct (ok response) eqn:Hb; [by apply Hok in Hb|]. by rewrite Htxt.
  - intros response e -> Hst Htxt. unfold speech_settles.
    destruct (ok response) eqn:Hb; [by apply Hok in Hb|]. by rewrite Htxt.
  - intros response e -> Hst%Hok Hbuf. unfold speech_settles.
    by rewrite Hst, Hbuf.
  - by destruct (speech_settles c).
Qed.
End ClientsAgain.

(** ** The end-to-end runner *)

Section RunnerClaims.
Context {W : Type} (ext : Externals W) (machine : Runner.Machine W)
  (outputPath : string).

(** The runner's [showDialogue] only writes to the console, so the
    fallback display cannot throw. *)
Lemma runner_dialogue_returns (this : AIManager.t W) entityId (w : W) :
  AIManager.adapter this = Runner.TestRunnerAdapter machine outputPath →
  completion (AIManager.generateNpcDialogue ext this entityId w) = Normal tt.
Proof.
  intros Hadapter. rewrite generateNpcDialogue_run, Hadapter. cbn zeta.
  by destruct (completion (AIManager.generateNpcDialogue_try _ _ _ _)) as [[]|error].
Qed.


(** X14. With the runner's adapter no call of [generateNpcDialogue] throws,
    whatever the providers, the disk and the player do. *)
Theorem runner_dialogue_never_throws llmService ttsService entityId (w : W) :
  completion
    (AIManager.generateNpcDialogue ext
       {| AIManager.adapter := Runner.TestRunnerAdapter machine outputPath;
          AIManager.llmService := llmService;
          AIManager.ttsService := ttsService |} entityId w)
  = Normal tt.
Proof.
  rewrite generateNpcDialogue_run. cbn zeta.
  by destruct (completion (AIManager.generateNpcDialogue_try _ _ _ _)) as [[]|error].
Qed.

(** [main()] in closed form, when the ElevenLabs key is given. *)
Lemma main_run gemini_key key gemini_model elevenlabs_model (w : W) :
  key ≠ "" →
  Runner.main ext machine outputPath gemini_key (Some key) gemini_model
    elevenlabs_model w =
  let '(sdk, w') := new_GoogleGenAI ext gemini_key w in
  let start := ConsoleLog "--- Starting AI Plugin E2E Test ---" in
  match sdk with
  | Throw e => mkRun (Throw e) w' [start; NewGoogleGenAI gemini_key sdk]
  | Normal handle =>
      let dialogue :=
        AIManager.generateNpcDialogue ext
          {| AIManager.adapter := Runner.TestRunnerAdapter machine outputPath;
             AIManager.llmService := {|
               GeminiService.genAI := handle;
               GeminiService.modelName :=
                 resolve_by_priority gemini_model
                   (process_env ext w' !! "GEMINI_MODEL_NAME") "gemini-1.5-flash" |};
             AIManager.ttsService := {|
               ElevenLabsTTSService.apiKey := key;
               ElevenLabsTTSService.voiceId := "21m00Tcm4TlvDq8ikWAM";
               ElevenLabsTTSService.modelId :=
                 resolve_by_priority elevenlabs_model
                   (process_env ext w' !! "ELEVENLABS_MODEL_ID")
                   "eleven_multilingual_v2" |} |}
          "bartender-1" w' in
      mkRun (Normal tt) (world dialogue)
        ([start; NewGoogleGenAI gemini_key sdk; ConsoleLog "AIManager initialized."]
         ++ events dialogue ++ [ConsoleLog (LF +:+ "--- Test Finished ---")])
  end.
Proof.
  intros Hkey. destruct key as [|c key]; [done|].
  unfold Runner.main, Js.bind, console_log, Js.emit.
  rewrite manager_new_run. cbn [AIManager.geminiApiKey AIManager.elevenLabsApiKey given
    AIManager.geminiModelName AIManager.elevenLabsModelId].
  destruct (new_GoogleGenAI ext gemini_key w) as [[handle|e] w']; [|done].
  cbn zeta.
  match goal with
  | |- context [AIManager.generateNpcDialogue ext ?m ?id ?w0] =>
      assert (completion (AIManager.generateNpcDialogue ext m id w0) = Normal tt)
        as Hret by (by apply runner_dialogue_returns);
      destruct (AIManager.generateNpcDialogue ext m id w0) as [done_ w'' tr]
  end.
  cbn [completion] in Hret. subst done_. cbn [completion world events].
  done.
Qed.

Lemma bind_ret_run {A B} (m : Js W A) (b : B) (w : W) :
  (m ;; Js.ret b) w
  = mkRun match completion (m w) with Normal _ => Normal b | Throw e => Throw e end
      (world (m w)) (events (m w)).
Proof.
  unfold Js.bind, Js.ret. destruct (m w) as [[a|e] w' tr]; [|done].
  cbn. by rewrite app_nil_r.
Qed.

(** The module body in closed form. *)
Lemma script_run (w : W) :
  Runner.script ext machine outputPath w =
  let env := process_env ext w in
  if negb (truthy (env !! "GEMINI_API_KEY")) || negb (truthy (env !! "ELEVENLABS_API_KEY"))
  then
    mkRun (Throw (mkError
             "Please provide GEMINI_API_KEY and ELEVENLABS_API_KEY in a .env file."))
      w []
  else
    Js.try_catch
      (Runner.main ext machine outputPath (env !! "GEMINI_API_KEY")
         (env !! "ELEVENLABS_API_KEY") (env !! "GEMINI_MODEL_NAME")
         (env !! "ELEVENLABS_MODEL_ID") ;; Js.ret None)
      (λ error,
         console_error "Test failed with an error:" (DetailError error) ;;
         Js.ret (Some 1%Z)) w.
Proof.
  unfold Runner.script. unfold Js.bind at 1. unfold Js.read. cbn zeta.
  destruct (negb _ || negb _); [done|].
  by destruct (Js.try_catch _ _ w).
Qed.

(** X15. The runner's script stops at once, before anything is logged or
    built, when one of the two API keys is missing or empty in the
    environment.  With both keys it fails in one way only: the SDK
    constructor throws, the error is logged and the process exits with
    code 1.  Otherwise it asks for the state of "bartender-1", reaches
    "--- Test Finished ---" and does not exit, even when the providers,
    the disk or the player fail. *)
Theorem script_fails_only_without_keys_or_handle (w : W) :
  let env := process_env ext w in
  let r := Runner.script ext machine outputPath w in
  let sdk := (new_GoogleGenAI ext (env !! "GEMINI_API_KEY") w).1 in
  (given (env !! "GEMINI_API_KEY") = None ∨ given (env !! "ELEVENLABS_API_KEY") = None →
     completion r
     = Throw (mkError
                "Please provide GEMINI_API_KEY and ELEVENLABS_API_KEY in a .env file.")
     ∧ events r = [] ∧ world r = w)
  ∧ (given (env !! "GEMINI_API_KEY") ≠ None →
     given (env !! "ELEVENLABS_API_KEY") ≠ None →
     (∀ e, sdk = Throw e →
        completion r = Normal (Some 1%Z)
        ∧ events r
          = [ConsoleLog "--- Starting AI Plugin E2E Test ---";
             NewGoogleGenAI (env !! "GEMINI_API_KEY") sdk;
             ConsoleError "Test failed with an error:" (DetailError e)])
     ∧ (∀ handle, sdk = Normal handle →
          completion r = Normal None
          ∧ (∃ rest, queries (events r) = QueryEntity "bartender-1" :: rest)
          ∧ last (events r) = Some (ConsoleLog (LF +:+ "--- Test Finished ---")))).
Proof.
  cbn zeta. rewrite script_run. cbn zeta.
  destruct (process_env ext w !! "GEMINI_API_KEY") as [[|c1 k1]|] eqn:Hg;
    cbn [truthy negb orb given].
  1, 3: split; [done|]; by intros ?.
  destruct (process_env ext w !! "ELEVENLABS_API_KEY") as [[|c2 k2]|] eqn:He;
    cbn [truthy negb orb given].
  1, 3: split; [done|]; by intros _ ?.
  split; [by intros [?|?]|]. intros _ _.
  unfold Js.try_catch. rewrite !bind_ret_run, !main_run by done.
  destruct (new_GoogleGenAI ext _ w) as [[handle|e] w1]; cbn [fst snd].
  - split; [done|]. intros ? [= <-]. cbn beta iota zeta.
    match goal with
    | |- context [AIManager.generateNpcDialogue ext ?m ?id ?w0] =>
        pose proof (queries_start_with_the_entity ext m id w0) as [rest Hq];
        destruct (AIManager.generateNpcDialogue ext m id w0) as [done_ w2 tr]
    end.
    cbn [completion world events] in *. split_and!; [done| |].
    + exists rest. unfold queries in *. rewrite !omap_app. cbn [omap].
      by rewrite app_nil_r.
    + by rewrite !app_assoc, last_snoc.
  - split; [|done]. intros ? [= <-]. done.
Qed.
End RunnerClaims.

(** ** More scenarios *)

(** The runner on a desk with room on the disk and no audio player: the
    line of the bartender is printed, the audio is in the output file, the
    player's failure goes to the error stream, and the script finishes. *)
Example run_on_a_desk :
  completion (Runner.script (Runner.providers Runner.dotenv)
                (Runner.desk false (Some (mkError "no player"))) "output.mp3"
                Runner.empty_desk)
  = Normal None
  ∧ Runner.disk (world (Runner.script (Runner.providers Runner.dotenv)
                          (Runner.desk false (Some (mkError "no player"))) "output.mp3"
                          Runner.empty_desk)) !! "output.mp3"
    = Some Mocks.audioData
  ∧ Runner.stdout (world (Runner.script (Runner.providers Runner.dotenv)
                            (Runner.desk false (Some (mkError "no player")))
                            "output.mp3" Runner.empty_desk))
    = [LF +:+ "[DIALOGUE for bartender-1]";
       "> What'll it be?";
       LF +:+ "Saving audio to: output.mp3";
       "Audio saved successfully. Now attempting to play..."]
  ∧ length (Runner.stderr (world (Runner.script (Runner.providers Runner.dotenv)
                                    (Runner.desk false (Some (mkError "no player")))
                                    "output.mp3" Runner.empty_desk)))
    = 1%nat.
Proof. by vm_compute. Qed.

(** The runner without keys. *)
Example run_without_keys :
  Runner.script (Runner.providers ∅) (Runner.desk false None) "output.mp3"
    Runner.empty_desk
  = mkRun (Throw (mkError
             "Please provide GEMINI_API_KEY and ELEVENLABS_API_KEY in a .env file."))
      Runner.empty_desk [].
Proof. by vm_compute. Qed.

Lemma dialogue_returns_when_fallback_shows_witness :
  completion (Mocks.dialogue Mocks.offline Mocks.LostEntityAdapter) = Normal tt.
Proof.
  apply (dialogue_returns_when_fallback_shows Mocks.offline
           (Mocks.aiManager Mocks.LostEntityAdapter) "npc-1" tt).
  intros []. reflexivity.
Defined.

Lemma state_is_fetched_in_order_witness :
  queries (events (Mocks.dialogue Mocks.both_succeed Mocks.LostEntityAdapter))
  = [QueryEntity "npc-1"]
  ∧ generations (events (Mocks.dialogue Mocks.both_succeed Mocks.LostEntityAdapter)) = [].
Proof.
  apply (proj1 (proj2 (state_is_fetched_in_order Mocks.both_succeed
                         (Mocks.aiManager Mocks.LostEntityAdapter) "npc-1" tt))
           (mkError "no such entity")).
  find_event.
Defined.

Lemma speech_is_requested_for_the_displayed_text_witness :
  ∃ t,
    spoken (events (Mocks.dialogue Mocks.both_succeed Mocks.MockGameAdapter)) = [t]
    ∧ json_field "text" (body Hosts.greeting_request.2) = Some (JString t)
    ∧ fetches (events (Mocks.dialogue Mocks.both_succeed Mocks.MockGameAdapter))
      = [Hosts.greeting_request].
Proof.
  destruct (speech_is_requested_for_the_displayed_text Mocks.both_succeed
              (Mocks.aiManager Mocks.MockGameAdapter) "npc-1" tt
              Hosts.greeting_request.1 Hosts.greeting_request.2)
    as (_ & _ & t & _ & _ & Htext & Hspoken & Hfetches & _).
  - find_event.
  - exists t. exact (conj Hspoken (conj Htext Hfetches)).
Defined.

Lemma failed_display_skips_speech_witness :
  fetches (events (Mocks.dialogue Mocks.both_succeed Hosts.NoDialogueBox)) = []
  ∧ spoken (events (Mocks.dialogue Mocks.both_succeed Hosts.NoDialogueBox)) = []
  ∧ instructions (events (Mocks.dialogue Mocks.both_succeed Hosts.NoDialogueBox))
    = [Show "Greetings, traveler." "npc-1"; Show "..." "npc-1"].
Proof.
  destruct (failed_display_skips_speech Mocks.both_succeed
              (Mocks.aiManager Hosts.NoDialogueBox) "npc-1" tt
              "Greetings, traveler." (mkError "dialogue box is gone"))
    as (Hfetches & Hspoken & Htold & _).
  - find_event.
  - exact (conj Hfetches (conj Hspoken Htold)).
Defined.

Lemma rejected_playback_ends_in_fallback_witness :
  ∃ t,
    instructions (events (Mocks.dialogue Mocks.both_succeed Hosts.Muted))
    = [Show t "npc-1"; Play Mocks.audioData "npc-1"; Show "..." "npc-1"]
    ∧ ShowDialogue t "npc-1" (Normal tt)
      ∈ events (Mocks.dialogue Mocks.both_succeed Hosts.Muted).
Proof.
  destruct (rejected_playback_ends_in_fallback Mocks.both_succeed
              (Mocks.aiManager Hosts.Muted) "npc-1" tt Mocks.audioData
              (mkError "no audio device"))
    as (t & Htold & Hshown & _).
  - find_event.
  - exists t. exact (conj Htold Hshown).
Defined.

Lemma prompt_states_personality_witness :
  includes
    (AIManager.prompt Hosts.stranger
       {| player_name := "Eldrin"; level := {| Number_toString := "5" |} |}
       {| location := "the Whispering Woods"; timeOfDay := "dusk" |})
    "Your personality is: a mysterious stranger." = true.
Proof.
  apply (proj2 (prompt_states_personality Hosts.stranger
                  {| player_name := "Eldrin"; level := {| Number_toString := "5" |} |}
                  {| location := "the Whispering Woods"; timeOfDay := "dusk" |})).
  left. reflexivity.
Defined.

Lemma options_reach_the_providers_witness :
  Hosts.greeting_request.1
  = "https://api.elevenlabs.io/v1/text-to-speech/21m00Tcm4TlvDq8ikWAM"
  ∧ method (ElevenLabsTTSService.request (AIManager.ttsService Hosts.manager)
              "Greetings, traveler.") = "POST"
  ∧ headers (ElevenLabsTTSService.request (AIManager.ttsService Hosts.manager)
               "Greetings, traveler.") !! "xi-api-key"
    = Some "fake-elevenlabs-key"
  ∧ json_field "model_id"
      (body (ElevenLabsTTSService.request (AIManager.ttsService Hosts.manager)
               "Greetings, traveler."))
    = Some (JString "eleven_turbo_v2").
Proof.
  apply (proj2 (options_reach_the_providers Mocks.both_succeed Mocks.MockGameAdapter
                  Hosts.options tt Hosts.manager "npc-1" tt eq_refl)
           Hosts.greeting_request.1
           (ElevenLabsTTSService.request (AIManager.ttsService Hosts.manager)
              "Greetings, traveler.")).
  find_event.
Defined.

Lemma generateSpeech_reports_the_failure_witness :
  diagnostics (events (ElevenLabsTTSService.generateSpeech Mocks.speech_refused
                         Mocks.tts "Hello" tt))
  = [("Error calling ElevenLabs TTS API:",
      DetailError (mkError ("HTTP error! status: " +:+ pretty 401%Z
                            +:+ ", body: " +:+ "Unauthorized")))].
Proof.
  apply (proj1 (proj2 (generateSpeech_reports_the_failure Mocks.speech_refused
                         Mocks.tts "Hello" tt)) Mocks.unauthorized "Unauthorized").
  - reflexivity.
  - cbn. lia.
  - reflexivity.
Defined.


Lemma script_fails_only_without_keys_or_handle_witness :
  completion (Runner.script (Runner.providers Runner.dotenv) (Runner.desk true None)
                "output.mp3" Runner.empty_desk)
  = Normal None
  ∧ (∃ rest,
       queries (events (Runner.script (Runner.providers Runner.dotenv)
                          (Runner.desk true None) "output.mp3" Runner.empty_desk))
       = QueryEntity "bartender-1" :: rest)
  ∧ last (events (Runner.script (Runner.providers Runner.dotenv)
                    (Runner.desk true None) "output.mp3" Runner.empty_desk))
    = Some (ConsoleLog (LF +:+ "--- Test Finished ---")).
Proof.
  apply (proj2 (proj2 (script_fails_only_without_keys_or_handle
                         (Runner.providers Runner.dotenv) (Runner.desk true None)
                         "output.mp3" Runner.empty_desk)
                  ltac:(discriminate) ltac:(discriminate))
           {| genai_apiKey := Some "gemini-key" |}).
  reflexivity.
Defined.
